(** * FloraAI: the analysis flow controller of the plant-diagnosis page

    The repository holds two revisions of the same React component [App]:
    - [src/index.tsx]: one photo per diagnosis ([Module Index]);
    - [src/unnamed/part_000]: several photos per diagnosis, read concurrently
      and joined with [Promise.all] ([Module Part000]).

    The component keeps four React state cells (language, processing flag,
    captured image(s), parsed diagnosis) and reacts to five kinds of events:
    a file selection, the end of a file read, the settlement of the request to
    the generative model, a click on the back button and a click on the
    language button.  Each event handler runs to completion on the event loop,
    so a handler is one transition of a state machine over the state cells, the
    pending asynchronous work and the log of [alert] calls. *)

From stdpp Require Import base list strings.
From Stdlib Require Import ZArith Lia Ascii.

Set Warnings "-register-all".
Local Open Scope string_scope.
Local Open Scope list_scope.

(** ** JavaScript values produced by [JSON.parse] *)

(** A parsed JSON document.  Objects keep their properties in document order
    with one entry per key.  The response schema has no numeric field; the
    controller only ever looks at whether a number is zero. *)
Inductive JsValue : Type :=
| JNull
| JBool (b : bool)
| JNum (n : Z)
| JStr (s : string)
| JArr (items : list JsValue)
| JObj (props : list (string * JsValue)).

(** Truthiness, as used by [if (x)], [!x] and [x && y]. *)
Definition truthy (v : JsValue) : bool :=
  match v with
  | JNull => false
  | JBool b => b
  | JNum n => negb (n =? 0)%Z
  | JStr s => negb (s =? "")
  | JArr _ => true
  | JObj _ => true
  end.

(** [string | null | undefined] under [if (x)]: the empty string is falsy. *)
Definition truthy_text (t : option string) : bool :=
  match t with
  | None => false
  | Some s => negb (s =? "")
  end.

(** [PlantData | null] under [data && ...]. *)
Definition truthy_data (d : option JsValue) : bool :=
  match d with
  | None => false
  | Some v => truthy v
  end.

(** A state cell of type [T | null] that receives a JavaScript value:
    the value [null] is the empty cell. *)
Definition nullable (v : JsValue) : option JsValue :=
  match v with
  | JNull => None
  | _ => Some v
  end.

(** Property read [o.k] on an object; [None] is [undefined]. *)
Fixpoint prop (k : string) (ps : list (string * JsValue)) : option JsValue :=
  match ps with
  | [] => None
  | (k', v) :: ps' => if k =? k' then Some v else prop k ps'
  end.

(** ** The response schema [plantSchema] *)

(** The fragment of the SDK's [Schema] type that [plantSchema] uses:
    [type], [enum], [items], [properties], [required]. *)
Inductive Schema : Type :=
| STRING (enum : option (list string))
| ARRAY (items : Schema)
| OBJECT (properties : list (string * Schema)) (required : list string).

Definition plantSchema : Schema :=
  OBJECT
    [ ("name", STRING None);
      ("scientificName", STRING None);
      ("healthStatus", STRING (Some ["Healthy"; "Needs Attention"; "Sick"; "Unknown"]));
      ("riskLevel", STRING (Some ["Low"; "Medium"; "High"]));
      ("symptoms", ARRAY (STRING None));
      ("causes", ARRAY (STRING None));
      ("urgency", STRING (Some ["Low"; "Medium"; "High"]));
      ("care", OBJECT
         [ ("light", STRING None);
           ("water", STRING None);
           ("soil", STRING None);
           ("temp", STRING None) ]
         ["light"; "water"; "soil"; "temp"]);
      ("diagnosisSteps", ARRAY (STRING None));
      ("treatmentIngredients", ARRAY (STRING None));
      ("funFact", STRING None) ]
    ["name"; "scientificName"; "healthStatus"; "riskLevel"; "symptoms"; "causes";
     "urgency"; "care"; "diagnosisSteps"; "treatmentIngredients"; "funFact"].

(** A value conforms to a schema: it has the schema's type, a string is one of
    the enumerated ones, every array item conforms to [items], every required
    property is present and every declared property that is present conforms. *)
Fixpoint conforms (sc : Schema) (v : JsValue) {struct sc} : bool :=
  match sc, v with
  | STRING None, JStr _ => true
  | STRING (Some allowed), JStr s => existsb (String.eqb s) allowed
  | ARRAY it, JArr l => forallb (conforms it) l
  | OBJECT properties required, JObj ps =>
      forallb (fun r => match prop r ps with Some _ => true | None => false end) required
      && forallb (fun p => match p with
                           | (k, sch) =>
                               match prop k ps with
                               | Some fv => conforms sch fv
                               | None => true
                               end
                           end) properties
  | _, _ => false
  end.

(** ** The interface [PlantData] *)

Inductive HealthStatus := Healthy | NeedsAttention | Sick | Unknown.
Inductive Level := Low | Medium | High.

Record CareGuide := {
  light : string;
  water : string;
  soil : string;
  temp : string
}.

Record PlantData := {
  name : string;
  scientificName : string;
  healthStatus : HealthStatus;
  riskLevel : Level;
  symptoms : list string;
  causes : list string;
  urgency : Level;
  care : CareGuide;
  diagnosisSteps : list string;
  treatmentIngredients : list string;
  funFact : string
}.

(** Reading a parsed value at the type [PlantData]: the structural content of
    the TypeScript interface ([JSON.parse(jsonText) as PlantData] itself checks
    nothing).  [None] when the value does not have the shape of the interface. *)
Definition asString (v : JsValue) : option string :=
  match v with JStr s => Some s | _ => None end.

Definition asStrings (v : JsValue) : option (list string) :=
  match v with JArr l => mapM asString l | _ => None end.

Definition asHealthStatus (v : JsValue) : option HealthStatus :=
  match v with
  | JStr s =>
      if s =? "Healthy" then Some Healthy
      else if s =? "Needs Attention" then Some NeedsAttention
      else if s =? "Sick" then Some Sick
      else if s =? "Unknown" then Some Unknown
      else None
  | _ => None
  end.

Definition asLevel (v : JsValue) : option Level :=
  match v with
  | JStr s =>
      if s =? "Low" then Some Low
      else if s =? "Medium" then Some Medium
      else if s =? "High" then Some High
      else None
  | _ => None
  end.

Definition asCareGuide (v : JsValue) : option CareGuide :=
  match v with
  | JObj ps =>
      l ← prop "light" ps ≫= asString;
      w ← prop "water" ps ≫= asString;
      s ← prop "soil" ps ≫= asString;
      t ← prop "temp" ps ≫= asString;
      Some {| light := l; water := w; soil := s; temp := t |}
  | _ => None
  end.

Definition asPlantData (v : JsValue) : option PlantData :=
  match v with
  | JObj ps =>
      n ← prop "name" ps ≫= asString;
      sn ← prop "scientificName" ps ≫= asString;
      hs ← prop "healthStatus" ps ≫= asHealthStatus;
      rl ← prop "riskLevel" ps ≫= asLevel;
      sy ← prop "symptoms" ps ≫= asStrings;
      ca ← prop "causes" ps ≫= asStrings;
      ur ← prop "urgency" ps ≫= asLevel;
      cg ← prop "care" ps ≫= asCareGuide;
      ds ← prop "diagnosisSteps" ps ≫= asStrings;
      ti ← prop "treatmentIngredients" ps ≫= asStrings;
      ff ← prop "funFact" ps ≫= asString;
      Some {| name := n; scientificName := sn; healthStatus := hs; riskLevel := rl;
              symptoms := sy; causes := ca; urgency := ur; care := cg;
              diagnosisSteps := ds; treatmentIngredients := ti; funFact := ff |}
  | _ => None
  end.

(** ** What both revisions share *)

(** [type Lang = 'zh' | 'en'] *)
Inductive Lang := zh | en.

(** A file handed over by the file picker: its [type] attribute (the MIME
    type, empty when the browser could not determine one) and its bytes in
    base64. *)
Record File := {
  file_type : string;
  file_base64 : string
}.

(** The media type a data URL is written with: the file's type, or
    [application/octet-stream] for a file without one. *)
Definition media_type (f : File) : string :=
  if file_type f =? "" then "application/octet-stream" else file_type f.

(** [FileReader.readAsDataURL]: the reader's [result] is the data URL
    [data:<media type>;base64,<bytes>].  The handlers read it as
    [reader.result as string]; a read that ends in an error, where [result]
    is [null], is not part of this model. *)
Definition readAsDataURL (f : File) : string :=
  "data:" +:+ media_type f +:+ ";base64," +:+ file_base64 f.

(** How [await ai.models.generateContent(...)] ends: the promise is rejected
    (network, quota, SDK error), or it yields a response whose [text] getter
    is a string or [undefined]. *)
Inductive Outcome :=
| Rejected
| Responded (text : option string).

(** Completion of a block of statements: normal, or by a thrown exception. *)
Inductive Completion (A : Type) :=
| Returned (a : A)
| Threw.
Arguments Returned {A} a.
Arguments Threw {A}.

(** The three conditional blocks of the JSX returned by [App], each named by
    the guard that selects it.  [ResultView d] is the result block selected
    for the stored value [d]; its JSX reads the fields of [PlantData], so
    what it shows is described, through [asPlantData], only for a [d] of that
    shape. *)
Inductive Block :=
| LandingView
| ProcessingView
| ResultView (d : JsValue).

(** The phase the user sees, read off the rendered blocks. *)
Inductive Phase := Idle | Processing | Result | Blank.

#[global] Instance Phase_eq_dec : EqDecision Phase.
Proof. solve_decision. Defined.

Definition phase_of (blocks : list Block) : Phase :=
  match blocks with
  | [LandingView] => Idle
  | [ProcessingView] => Processing
  | [ResultView _] => Result
  | _ => Blank
  end.

(** The panels of the right column of the result block. *)
Inductive Panel :=
| SummaryCards (sy ca : list string) (ur : Level) (ff : string)
| CareGrid (c : CareGuide)
| Timeline (steps : list string)
| Treatment (ingredients : list string).

(** The right column: three unconditional sections, then
    [{data.treatmentIngredients.length > 0 && (<section>...</section>)}]. *)
Definition result_panels (d : PlantData) : list Panel :=
  [ SummaryCards (symptoms d) (causes d) (urgency d) (funFact d);
    CareGrid (care d);
    Timeline (diagnosisSteps d) ]
  ++ (if (0 <? length (treatmentIngredients d))%nat
      then [Treatment (treatmentIngredients d)]
      else []).

(** ** [src/index.tsx]: one photo per diagnosis *)

Module Index.

(** The entry of [translations] that the controller uses. *)
Record Translation := { error : string }.

Definition translations (l : Lang) : Translation :=
  match l with
  | en => {| error := "Could not analyze the image. Please try a clear photo of a plant." |}
  | zh => {| error := "无法分析该图片。请上传清晰的植物照片。" |}
  end.

(** The four [useState] cells of [App]. *)
Record App := {
  lang : Lang;
  analyzing : bool;
  image : option string;
  data : option JsValue
}.

(** [useState<Lang>('zh')], [useState(false)], [useState(null)], [useState(null)] *)
Definition initial : App :=
  {| lang := zh; analyzing := false; image := None; data := None |}.

Definition setLang (l : Lang) (a : App) : App :=
  {| lang := l; analyzing := analyzing a; image := image a; data := data a |}.
Definition setAnalyzing (b : bool) (a : App) : App :=
  {| lang := lang a; analyzing := b; image := image a; data := data a |}.
Definition setImage (i : option string) (a : App) : App :=
  {| lang := lang a; analyzing := analyzing a; image := i; data := data a |}.
Definition setData (d : option JsValue) (a : App) : App :=
  {| lang := lang a; analyzing := analyzing a; image := image a; data := d |}.

(** The JSX of [App]:
    [{!image && (...)}], [{image && analyzing && (...)}],
    [{image && data && !analyzing && (...)}]. *)
Definition render (a : App) : list Block :=
  (if negb (truthy_text (image a)) then [LandingView] else [])
  ++ (if truthy_text (image a) && analyzing a then [ProcessingView] else [])
  ++ (match data a with
      | Some d =>
          if truthy_text (image a) && truthy d && negb (analyzing a)
          then [ResultView d] else []
      | None => []
      end).

Definition phase (a : App) : Phase := phase_of (render a).

(** A [FileReader] that has been started: the file it reads, and the
    language of the render whose [analyzePlant] its [onloadend] closes over. *)
Record Reader := { reader_file : File; reader_lang : Lang }.

(** A [generateContent] request in flight, with the language of the closure
    that awaits it. *)
Record Call := { call_image : string; call_lang : Lang }.

(** The component together with its pending asynchronous work and the
    effects it has had on the page. *)
Record World := {
  app : App;
  readers : list Reader;
  calls : list Call;
  alerts : list string;      (* messages passed to [alert], oldest first *)
  console : nat              (* number of [console.error] calls *)
}.

Definition boot : World :=
  {| app := initial; readers := []; calls := []; alerts := []; console := 0 |}.

Definition upd (f : App → App) (w : World) : World :=
  {| app := f (app w); readers := readers w; calls := calls w;
     alerts := alerts w; console := console w |}.
Definition with_readers (rs : list Reader) (w : World) : World :=
  {| app := app w; readers := rs; calls := calls w;
     alerts := alerts w; console := console w |}.
Definition with_calls (cs : list Call) (w : World) : World :=
  {| app := app w; readers := readers w; calls := cs;
     alerts := alerts w; console := console w |}.
Definition alert (msg : string) (w : World) : World :=
  {| app := app w; readers := readers w; calls := calls w;
     alerts := alerts w ++ [msg]; console := console w |}.
Definition console_error (w : World) : World :=
  {| app := app w; readers := readers w; calls := calls w;
     alerts := alerts w; console := S (console w) |}.

(** [handleImageUpload]: [files?.[0]], return when there is none, otherwise
    start a reader.  No state cell is written here. *)
Definition handleImageUpload (files : list File) (w : World) : World :=
  match files with
  | [] => w
  | file :: _ =>
      with_readers (readers w ++ [{| reader_file := file; reader_lang := lang (app w) |}]) w
  end.

(** [analyzePlant] up to its [await]: [setAnalyzing(true); setData(null)],
    then the request is sent. *)
Definition analyzePlant (base64Image : string) (l : Lang) (w : World) : World :=
  with_calls (calls w ++ [{| call_image := base64Image; call_lang := l |}])
    (upd (setData None) (upd (setAnalyzing true) w)).

(** [reader.onloadend]: [setImage(result); analyzePlant(result)]. *)
Definition onloadend (k : nat) (w : World) : World :=
  match readers w !! k with
  | None => w
  | Some r =>
      let result := readAsDataURL (reader_file r) in
      analyzePlant result (reader_lang r)
        (upd (setImage (Some result)) (with_readers (delete k (readers w)) w))
  end.

(** [reset]: [setImage(null); setData(null)]. *)
Definition reset (w : World) : World :=
  upd (setData None) (upd (setImage None) w).

(** The language button: [setLang(lang === 'zh' ? 'en' : 'zh')]. *)
Definition toggleLanguage (w : World) : World :=
  upd (fun a => setLang (match lang a with zh => en | en => zh end) a) w.

Inductive Event :=
| FilesSelected (files : list File)
| ReaderLoaded (k : nat)
| CallSettled (k : nat) (o : Outcome)
| ResetClicked
| LanguageClicked.

(** What the page lets happen: the upload button and the language button
    are part of the landing block, the back button of the result block;
    a reader or a request can only finish when it is pending. *)
Definition enabled (w : World) (e : Event) : bool :=
  match e with
  | FilesSelected _ | LanguageClicked => bool_decide (phase (app w) = Idle)
  | ResetClicked => bool_decide (phase (app w) = Result)
  | ReaderLoaded k => bool_decide (k < length (readers w))
  | CallSettled k _ => bool_decide (k < length (calls w))
  end.

Section Parser.
(** [JSON.parse]: [None] when it throws a [SyntaxError]. *)
Variable JSON_parse : string → option JsValue.

(** The [try] block of [analyzePlant] from the [await] on. *)
Definition analyzePlant_try (o : Outcome) (w : World) : Completion World :=
  match o with
  | Rejected => Threw
  | Responded jsonText =>
      match jsonText with
      | Some s =>
          if truthy_text jsonText then
            match JSON_parse s with
            | Some parsedData => Returned (upd (setData (nullable parsedData)) w)
            | None => Threw
            end
          else Returned w
      | None => Returned w
      end
  end.

(** [analyzePlant] from its [await] on: [try], [catch], [finally]. *)
Definition analyzePlant_resume (c : Call) (o : Outcome) (w : World) : World :=
  let caught :=
    match analyzePlant_try o w with
    | Returned w' => w'
    | Threw =>
        upd (setImage None)
          (alert (error (translations (call_lang c))) (console_error w))
    end in
  upd (setAnalyzing false) caught.

(** The request [k] settles and its [analyzePlant] resumes. *)
Definition settle (k : nat) (o : Outcome) (w : World) : World :=
  match calls w !! k with
  | None => w
  | Some c => analyzePlant_resume c o (with_calls (delete k (calls w)) w)
  end.

Definition step (w : World) (e : Event) : World :=
  match e with
  | FilesSelected files => handleImageUpload files w
  | ReaderLoaded k => onloadend k w
  | CallSettled k o => settle k o w
  | ResetClicked => reset w
  | LanguageClicked => toggleLanguage w
  end.

Definition run (w : World) (tr : list Event) : World := foldl step w tr.

Fixpoint feasible (w : World) (tr : list Event) : bool :=
  match tr with
  | [] => true
  | e :: tr' => enabled w e && feasible (step w e) tr'
  end.

(** Nothing is pending: no reader is running and no request is in flight. *)
Definition quiet (w : World) : bool :=
  match readers w, calls w with
  | [], [] => true
  | _, _ => false
  end.

(** A run in which every file selection finds nothing pending. *)
Fixpoint one_at_a_time (w : World) (tr : list Event) : bool :=
  match tr with
  | [] => true
  | e :: tr' =>
      (match e with
       | FilesSelected _ => quiet w
       | _ => true
       end) && one_at_a_time (step w e) tr'
  end.
End Parser.

End Index.

(** ** [src/unnamed/part_000]: several photos per diagnosis *)

Module Part000.

Record Translation := { error : string }.

Definition translations (l : Lang) : Translation :=
  match l with
  | en => {| error := "Could not analyze the images. Please try clear photos of a plant." |}
  | zh => {| error := "无法分析该图片。请上传清晰的植物照片。" |}
  end.

(** The four [useState] cells of [App]. *)
Record App := {
  lang : Lang;
  isProcessing : bool;
  images : option (list string);
  data : option JsValue
}.

Definition initial : App :=
  {| lang := zh; isProcessing := false; images := None; data := None |}.

Definition setLang (l : Lang) (a : App) : App :=
  {| lang := l; isProcessing := isProcessing a; images := images a; data := data a |}.
Definition setIsProcessing (b : bool) (a : App) : App :=
  {| lang := lang a; isProcessing := b; images := images a; data := data a |}.
Definition setImages (i : option (list string)) (a : App) : App :=
  {| lang := lang a; isProcessing := isProcessing a; images := i; data := data a |}.
Definition setData (d : option JsValue) (a : App) : App :=
  {| lang := lang a; isProcessing := isProcessing a; images := images a; data := d |}.

(** [string[] | null] under [!images] and [images && ...]: every array,
    the empty one too, is truthy. *)
Definition truthy_images (i : option (list string)) : bool :=
  match i with
  | None => false
  | Some _ => true
  end.

(** The JSX of [App]:
    [{!images && (...)}], [{images && isProcessing && (...)}],
    [{images && data && !isProcessing && (...)}]. *)
Definition render (a : App) : list Block :=
  (if negb (truthy_images (images a)) then [LandingView] else [])
  ++ (if truthy_images (images a) && isProcessing a then [ProcessingView] else [])
  ++ (match data a with
      | Some d =>
          if truthy_images (images a) && truthy d && negb (isProcessing a)
          then [ResultView d] else []
      | None => []
      end).

Definition phase (a : App) : Phase := phase_of (render a).

(** One run of [handleImageUpload] that is waiting for its readers: the
    selected files, the values array of [Promise.all(promises)] (entry [i] is
    filled when promise [i] is resolved), and the language of the render
    whose closures the [then] callback calls. *)
Record Upload := {
  upload_files : list File;
  upload_values : list (option string);
  upload_lang : Lang
}.

(** A [callGemini] in flight, with the images it was given and the language
    of the closure that awaits it. *)
Record Call := { call_images : list string; call_lang : Lang }.

Record World := {
  app : App;
  uploads : list Upload;
  calls : list Call;
  alerts : list string;      (* messages passed to [alert], oldest first *)
  console : nat              (* number of [console.error] calls *)
}.

Definition boot : World :=
  {| app := initial; uploads := []; calls := []; alerts := []; console := 0 |}.

Definition upd (f : App → App) (w : World) : World :=
  {| app := f (app w); uploads := uploads w; calls := calls w;
     alerts := alerts w; console := console w |}.
Definition with_uploads (us : list Upload) (w : World) : World :=
  {| app := app w; uploads := us; calls := calls w;
     alerts := alerts w; console := console w |}.
Definition with_calls (cs : list Call) (w : World) : World :=
  {| app := app w; uploads := uploads w; calls := cs;
     alerts := alerts w; console := console w |}.
Definition alert (msg : string) (w : World) : World :=
  {| app := app w; uploads := uploads w; calls := calls w;
     alerts := alerts w ++ [msg]; console := console w |}.
Definition console_error (w : World) : World :=
  {| app := app w; uploads := uploads w; calls := calls w;
     alerts := alerts w; console := S (console w) |}.

(** [handleImageUpload]: return on an empty selection; otherwise
    [setData(null); setIsProcessing(true)], one promise and one reader per
    file, and [Promise.all(promises).then(...)]. *)
Definition handleImageUpload (files : list File) (w : World) : World :=
  match files with
  | [] => w
  | _ :: _ =>
      with_uploads
        (uploads w ++ [{| upload_files := files;
                          upload_values := replicate (length files) None;
                          upload_lang := lang (app w) |}])
        (upd (setIsProcessing true) (upd (setData None) w))
  end.

(** [Promise.all]: fulfilled, with the values in the order of the promises,
    once no entry of the values array is missing. *)
Definition Promise_all (values : list (option string)) : option (list string) :=
  mapM id values.

(** [startSimulationAndAnalysis] up to its [await]:
    [setIsProcessing(true)], then [callGemini(base64Images)] is started. *)
Definition startSimulationAndAnalysis
    (base64Images : list string) (l : Lang) (w : World) : World :=
  with_calls (calls w ++ [{| call_images := base64Images; call_lang := l |}])
    (upd (setIsProcessing true) w).

(** [reader.onloadend] of reader [i] of upload [k]:
    [resolve(reader.result)]; when it was the last promise of the upload,
    the [then] callback runs: [setImages(base64Images);
    startSimulationAndAnalysis(base64Images)]. *)
Definition onloadend (k i : nat) (w : World) : World :=
  match uploads w !! k with
  | None => w
  | Some u =>
      match upload_files u !! i, upload_values u !! i with
      | Some file, Some None =>
          let values := <[i := Some (readAsDataURL file)]> (upload_values u) in
          match Promise_all values with
          | Some base64Images =>
              startSimulationAndAnalysis base64Images (upload_lang u)
                (upd (setImages (Some base64Images))
                   (with_uploads (delete k (uploads w)) w))
          | None =>
              with_uploads
                (<[k := {| upload_files := upload_files u;
                           upload_values := values;
                           upload_lang := upload_lang u |}]> (uploads w)) w
          end
      | _, _ => w
      end
  end.

(** The values array of [Promise.all] for an upload of [files] of which the
    readers [todo] have not fired [onloadend] yet. *)
Definition values_with (todo : list nat) (files : list File) : list (option string) :=
  imap (fun i file =>
          if bool_decide (i ∈ todo) then None else Some (readAsDataURL file))
       files.

Definition upload_with (todo : list nat) (files : list File) (l : Lang) : Upload :=
  {| upload_files := files; upload_values := values_with todo files; upload_lang := l |}.

(** The readers of upload [k] fire [onloadend] in the given order. *)
Definition readers_finish (k : nat) (order : list nat) (w : World) : World :=
  foldl (fun x i => onloadend k i x) w order.

(** [reset]: [setImages(null); setData(null)]. *)
Definition reset (w : World) : World :=
  upd (setData None) (upd (setImages None) w).

(** The language button: [setLang(lang === 'zh' ? 'en' : 'zh')]. *)
Definition toggleLanguage (w : World) : World :=
  upd (fun a => setLang (match lang a with zh => en | en => zh end) a) w.

Inductive Event :=
| FilesSelected (files : list File)
| ReaderLoaded (k i : nat)
| CallSettled (k : nat) (o : Outcome)
| ResetClicked
| LanguageClicked.

(** What the page lets happen: the upload button and the language button
    are part of the landing block, the back button of the result block;
    a reader fires [onloadend] once, a request settles once. *)
Definition enabled (w : World) (e : Event) : bool :=
  match e with
  | FilesSelected _ | LanguageClicked => bool_decide (phase (app w) = Idle)
  | ResetClicked => bool_decide (phase (app w) = Result)
  | ReaderLoaded k i =>
      match uploads w !! k with
      | Some u =>
          match upload_values u !! i with
          | Some None => true
          | _ => false
          end
      | None => false
      end
  | CallSettled k _ => bool_decide (k < length (calls w))
  end.

(** Nothing is pending: no reader is running and no request is in flight. *)
Definition quiet (w : World) : bool :=
  match uploads w, calls w with
  | [], [] => true
  | _, _ => false
  end.

Section Parser.
(** [JSON.parse]: [None] when it throws a [SyntaxError]. *)
Variable JSON_parse : string → option JsValue.

(** [callGemini] from its [await] on: the parsed text, [null] when the
    text is falsy; an exception is thrown on to the caller. *)
Definition callGemini (o : Outcome) : Completion JsValue :=
  match o with
  | Rejected => Threw
  | Responded jsonText =>
      match jsonText with
      | Some s =>
          if truthy_text jsonText then
            match JSON_parse s with
            | Some parsed => Returned parsed
            | None => Threw
            end
          else Returned JNull
      | None => Returned JNull
      end
  end.

(** [startSimulationAndAnalysis] from its [await] on:
    [try], [catch], [finally]. *)
Definition startSimulationAndAnalysis_resume
    (c : Call) (o : Outcome) (w : World) : World :=
  let caught :=
    match callGemini o with
    | Returned result =>
        if truthy result then upd (setData (Some result)) w else w
    | Threw =>
        upd (setImages None)
          (alert (error (translations (call_lang c))) (console_error w))
    end in
  upd (setIsProcessing false) caught.

(** The request [k] settles and its [startSimulationAndAnalysis] resumes. *)
Definition settle (k : nat) (o : Outcome) (w : World) : World :=
  match calls w !! k with
  | None => w
  | Some c =>
      startSimulationAndAnalysis_resume c o (with_calls (delete k (calls w)) w)
  end.

Definition step (w : World) (e : Event) : World :=
  match e with
  | FilesSelected files => handleImageUpload files w
  | ReaderLoaded k i => onloadend k i w
  | CallSettled k o => settle k o w
  | ResetClicked => reset w
  | LanguageClicked => toggleLanguage w
  end.

Definition run (w : World) (tr : list Event) : World := foldl step w tr.

Fixpoint feasible (w : World) (tr : list Event) : bool :=
  match tr with
  | [] => true
  | e :: tr' => enabled w e && feasible (step w e) tr'
  end.

(** A run in which every file selection finds nothing pending. *)
Fixpoint one_at_a_time (w : World) (tr : list Event) : bool :=
  match tr with
  | [] => true
  | e :: tr' =>
      (match e with
       | FilesSelected _ => quiet w
       | _ => true
       end) && one_at_a_time (step w e) tr'
  end.
End Parser.

End Part000.

(** ** Outcomes of a request, as the two revisions classify them *)

(** The outcomes on which the [try] block ends by an exception: the request is
    rejected, or the response text is non-empty and [JSON.parse] refuses it. *)
Definition call_throws (JSON_parse : string → option JsValue) (o : Outcome) : Prop :=
  o = Rejected ∨ ∃ s, o = Responded (Some s) ∧ s ≠ "" ∧ JSON_parse s = None.

(** ** Sample inputs *)

Module Sample.

Definition photo : File :=
  {| file_type := "image/jpeg"; file_base64 := "/9j/4AAQSkZJRgABAQ==" |}.

Definition closeup : File :=
  {| file_type := "image/png"; file_base64 := "iVBORw0KGgoAAAANSUhEUg==" |}.

(** The scenario of a healthy plant: no treatment ingredient. *)
Definition healthy : JsValue :=
  JObj [ ("name", JStr "Monstera");
         ("scientificName", JStr "Monstera deliciosa");
         ("healthStatus", JStr "Healthy");
         ("riskLevel", JStr "Low");
         ("symptoms", JArr []);
         ("causes", JArr []);
         ("urgency", JStr "Low");
         ("care", JObj [ ("light", JStr "Bright, indirect");
                         ("water", JStr "Weekly");
                         ("soil", JStr "Well-draining");
                         ("temp", JStr "18-27 C") ]);
         ("diagnosisSteps", JArr [JStr "Keep the current routine"]);
         ("treatmentIngredients", JArr []);
         ("funFact", JStr "Its leaves develop holes as they mature.") ].

Definition sick : JsValue :=
  JObj [ ("name", JStr "Rose");
         ("scientificName", JStr "Rosa chinensis");
         ("healthStatus", JStr "Sick");
         ("riskLevel", JStr "High");
         ("symptoms", JArr [JStr "Black spots"; JStr "Yellow leaves"]);
         ("causes", JArr [JStr "Fungal infection"]);
         ("urgency", JStr "High");
         ("care", JObj [ ("light", JStr "Full sun");
                         ("water", JStr "Twice a week");
                         ("soil", JStr "Loam");
                         ("temp", JStr "15-25 C") ]);
         ("diagnosisSteps", JArr [JStr "Remove infected leaves"; JStr "Spray fungicide"]);
         ("treatmentIngredients", JArr [JStr "Mancozeb"; JStr "Carbendazim"]);
         ("funFact", JStr "Roses have been cultivated for 5000 years.") ].

(** The two documents at the type [PlantData]. *)
Definition healthy_data : PlantData :=
  {| name := "Monstera"; scientificName := "Monstera deliciosa";
     healthStatus := Healthy; riskLevel := Low;
     symptoms := []; causes := []; urgency := Low;
     care := {| light := "Bright, indirect"; water := "Weekly";
                soil := "Well-draining"; temp := "18-27 C" |};
     diagnosisSteps := ["Keep the current routine"];
     treatmentIngredients := [];
     funFact := "Its leaves develop holes as they mature." |}.

Definition sick_data : PlantData :=
  {| name := "Rose"; scientificName := "Rosa chinensis";
     healthStatus := Sick; riskLevel := High;
     symptoms := ["Black spots"; "Yellow leaves"];
     causes := ["Fungal infection"]; urgency := High;
     care := {| light := "Full sun"; water := "Twice a week";
                soil := "Loam"; temp := "15-25 C" |};
     diagnosisSteps := ["Remove infected leaves"; "Spray fungicide"];
     treatmentIngredients := ["Mancozeb"; "Carbendazim"];
     funFact := "Roses have been cultivated for 5000 years." |}.

(** JSON text of documents made of strings, arrays and objects whose
    strings need no escaping. *)
Definition quoted (s : string) : string :=
  String "034"%char (s +:+ String "034"%char "").

Fixpoint comma_separated (items : list string) : string :=
  match items with
  | [] => ""
  | [x] => x
  | x :: rest => x +:+ "," +:+ comma_separated rest
  end.

Definition array_text (items : list string) : string :=
  "[" +:+ comma_separated items +:+ "]".

Definition object_text (members : list (string * string)) : string :=
  "{" +:+ comma_separated (map (fun m => quoted (fst m) +:+ ":" +:+ snd m) members)
      +:+ "}".

Definition healthy_text : string :=
  object_text
    [ ("name", quoted "Monstera");
      ("scientificName", quoted "Monstera deliciosa");
      ("healthStatus", quoted "Healthy");
      ("riskLevel", quoted "Low");
      ("symptoms", array_text []);
      ("causes", array_text []);
      ("urgency", quoted "Low");
      ("care", object_text [ ("light", quoted "Bright, indirect");
                             ("water", quoted "Weekly");
                             ("soil", quoted "Well-draining");
                             ("temp", quoted "18-27 C") ]);
      ("diagnosisSteps", array_text [quoted "Keep the current routine"]);
      ("treatmentIngredients", array_text []);
      ("funFact", quoted "Its leaves develop holes as they mature.") ].

Definition sick_text : string :=
  object_text
    [ ("name", quoted "Rose");
      ("scientificName", quoted "Rosa chinensis");
      ("healthStatus", quoted "Sick");
      ("riskLevel", quoted "High");
      ("symptoms", array_text [quoted "Black spots"; quoted "Yellow leaves"]);
      ("causes", array_text [quoted "Fungal infection"]);
      ("urgency", quoted "High");
      ("care", object_text [ ("light", quoted "Full sun");
                             ("water", quoted "Twice a week");
                             ("soil", quoted "Loam");
                             ("temp", quoted "15-25 C") ]);
      ("diagnosisSteps",
       array_text [quoted "Remove infected leaves"; quoted "Spray fungicide"]);
      ("treatmentIngredients", array_text [quoted "Mancozeb"; quoted "Carbendazim"]);
      ("funFact", quoted "Roses have been cultivated for 5000 years.") ].

(** A stand-in for [JSON.parse] in the examples: it reads the two sample
    texts and throws on every other text. *)
Definition mock_parse (s : string) : option JsValue :=
  if s =? healthy_text then Some healthy
  else if s =? sick_text then Some sick
  else None.

(** A document that is valid JSON but not a diagnosis, its text, and the
    stand-in parser that also reads this text. *)
Definition partial : JsValue := JObj [("name", JStr "Rose")].

Definition partial_text : string := object_text [("name", quoted "Rose")].

Definition lenient_parse (s : string) : option JsValue :=
  if s =? partial_text then Some partial else mock_parse s.

End Sample.

(** ** Invariants of the runs *)

(** [index.tsx]: the diagnosis cell is empty while [analyzing] is set. *)
Definition index_inv (w : Index.World) : Prop :=
  Index.analyzing (Index.app w) = true → Index.data (Index.app w) = None.

(** [part_000]: the diagnosis cell is empty while [isProcessing] is set and
    while an upload waits for its readers, and at most one upload or request
    is pending. *)
Definition part000_inv (w : Part000.World) : Prop :=
  (Part000.isProcessing (Part000.app w) = true → Part000.data (Part000.app w) = None)
  ∧ (Part000.uploads w ≠ [] → Part000.data (Part000.app w) = None)
  ∧ (length (Part000.uploads w) + length (Part000.calls w) ≤ 1)%nat.

(** Runs with one selection at a time, [index.tsx]: the diagnosis cell is
    empty while [analyzing] is set, at most one reader or request is pending,
    and [analyzing] is set while a request is in flight. *)
Definition index_flight_inv (w : Index.World) : Prop :=
  (Index.analyzing (Index.app w) = true → Index.data (Index.app w) = None)
  ∧ (length (Index.readers w) + length (Index.calls w) ≤ 1)%nat
  ∧ (Index.calls w ≠ [] → Index.analyzing (Index.app w) = true).

(** Runs with one selection at a time, [part_000]: [part000_inv], and
    [isProcessing] is set while a request is in flight. *)
Definition part000_flight_inv (w : Part000.World) : Prop :=
  part000_inv w
  ∧ (Part000.calls w ≠ [] → Part000.isProcessing (Part000.app w) = true).

(** Runs through the page with one selection at a time: moreover the image
    cell is set while a request is in flight. *)
Definition index_solo_inv (w : Index.World) : Prop :=
  index_flight_inv w
  ∧ (Index.calls w ≠ [] → truthy_text (Index.image (Index.app w)) = true).

Definition part000_solo_inv (w : Part000.World) : Prop :=
  part000_flight_inv w
  ∧ (Part000.calls w ≠ []
     → Part000.truthy_images (Part000.images (Part000.app w)) = true).

(** ** Building the request *)

(** [String.prototype.split] with a one-character separator: the pieces
    between the occurrences of the separator, at least one piece. *)
Fixpoint split (sep : ascii) (s : string) : list string :=
  match s with
  | EmptyString => [EmptyString]
  | String c s' =>
      if Ascii.eqb c sep then EmptyString :: split sep s'
      else match split sep s' with
           | [] => [String c EmptyString]
           | piece :: pieces => String c piece :: pieces
           end
  end.

(** The character occurs in the string. *)
Fixpoint has_char (c : ascii) (s : string) : bool :=
  match s with
  | EmptyString => false
  | String c' s' => Ascii.eqb c' c || has_char c s'
  end.

(** [img.split(',')[1]]; [None] is [undefined]. *)
Definition base64Data (img : string) : option string :=
  split ","%char img !! 1%nat.

(** [img.split(';')[0].split(':')[1]]; [None] is [undefined]. *)
Definition mimeType (img : string) : option string :=
  split ";"%char img !! 0%nat ≫= fun head => split ":"%char head !! 1%nat.

(** [{ inlineData: { mimeType, data: base64Data } }] *)
Record InlineData := {
  inline_mimeType : option string;
  inline_data : option string
}.

Definition inlineData (img : string) : InlineData :=
  {| inline_mimeType := mimeType img; inline_data := base64Data img |}.

(** [part_000]: [const imageParts = base64Images.map(img => ...)], the parts
    that precede the prompt in [contents]. *)
Definition imageParts (base64Images : list string) : list InlineData :=
  map inlineData base64Images.

(** A file whose MIME type holds none of the separators [,], [;] and [:]
    and whose base64 text holds no [,] (the base64 alphabet has none). *)
Definition plain_file (f : File) : bool :=
  negb (has_char ","%char (file_type f))
  && negb (has_char ";"%char (file_type f))
  && negb (has_char ":"%char (file_type f))
  && negb (has_char ","%char (file_base64 f)).

(** ** The label tables of [translations] and the components that read them *)

Module Translations.

(** [translations[lang].health], [.risk] and [.urgency]: own properties in
    the order of the source, the same in both revisions. *)
Record Tables := {
  health : list (string * string);
  risk : list (string * string);
  urgency : list (string * string)
}.

Definition tables (l : Lang) : Tables :=
  match l with
  | en =>
      {| health := [ ("Healthy", "Healthy"); ("Needs Attention", "Needs Care");
                     ("Sick", "Sick"); ("Unknown", "Unknown") ];
         risk := [ ("Low", "Low Risk"); ("Medium", "Medium Risk"); ("High", "High Risk") ];
         urgency := [ ("Low", "Observation Needed"); ("Medium", "Action Required");
                      ("High", "Urgent Action") ] |}
  | zh =>
      {| health := [ ("Healthy", "健康"); ("Needs Attention", "需关注");
                     ("Sick", "确诊病害"); ("Unknown", "未知对象") ];
         risk := [ ("Low", "低风险"); ("Medium", "中风险"); ("High", "高风险") ];
         urgency := [ ("Low", "建议观察"); ("Medium", "需干预"); ("High", "紧急") ] |}
  end.

(** [table[key]] for a key that is an own property of the table; [None]
    when the table has no such entry. *)
Fixpoint entry (key : string) (table : list (string * string)) : option string :=
  match table with
  | [] => None
  | (k, label) :: table' => if key =? k then Some label else entry key table'
  end.

End Translations.

(** What [HealthBar] puts on the page: the two labels and the classes and
    width computed by its colour logic and badge logic. *)
Record HealthBarView := {
  bar_label : option string;        (* [t.health[status]] *)
  bar_badge : option string;        (* [t.risk[risk]] *)
  bar_gradient : string;
  bar_width : string;
  bar_shadowColor : string;
  bar_badgeColor : string
}.

Definition HealthBar (status risk : string) (lang : Lang) : HealthBarView :=
  let t := Translations.tables lang in
  let '(gradient, width, shadowColor) :=
    if status =? "Needs Attention"
    then ("from-amber-400 to-orange-500", "66%", "shadow-orange-500/30")
    else if status =? "Sick"
    then ("from-rose-500 to-red-600", "33%", "shadow-red-500/30")
    else if status =? "Unknown"
    then ("from-stone-400 to-stone-500", "0%", "shadow-stone-500/30")
    else ("from-emerald-400 to-emerald-600", "100%", "shadow-emerald-500/30") in
  let badgeColor := "bg-emerald-100 text-emerald-800 border-emerald-200" in
  let badgeColor :=
    if risk =? "Medium" then "bg-amber-100 text-amber-800 border-amber-200"
    else badgeColor in
  let badgeColor :=
    if risk =? "High" then "bg-rose-100 text-rose-800 border-rose-200"
    else badgeColor in
  {| bar_label := Translations.entry status (Translations.health t);
     bar_badge := Translations.entry risk (Translations.risk t);
     bar_gradient := gradient;
     bar_width := width;
     bar_shadowColor := shadowColor;
     bar_badgeColor := badgeColor |}.

(** The props of one [StepItem]. *)
Record StepItemProps := {
  number : Z;
  text : string;
  isLast : bool
}.

(** [data.diagnosisSteps.map((step, i) => <StepItem number={i + 1}
    text={step} isLast={i === data.diagnosisSteps.length - 1} />)] *)
Definition timeline (diagnosisSteps : list string) : list StepItemProps :=
  imap (fun i step =>
          {| number := Z.of_nat i + 1;
             text := step;
             isLast := (Z.of_nat i =? Z.of_nat (length diagnosisSteps) - 1)%Z |})
       diagnosisSteps.

(** [StepItem] draws the line to the next step under [{!isLast && ...}]. *)
Definition has_timeline_line (p : StepItemProps) : bool := negb (isLast p).

(** ** Counting the events of a run *)

Definition index_language_clicks (tr : list Index.Event) : nat :=
  length (List.filter (fun e => match e with Index.LanguageClicked => true | _ => false end) tr).

Definition part000_language_clicks (tr : list Part000.Event) : nat :=
  length (List.filter (fun e => match e with Part000.LanguageClicked => true | _ => false end) tr).

Definition index_selections (tr : list Index.Event) : nat :=
  length (List.filter (fun e => match e with
                           | Index.FilesSelected (_ :: _) => true
                           | _ => false
                           end) tr).

Definition part000_selections (tr : list Part000.Event) : nat :=
  length (List.filter (fun e => match e with
                           | Part000.FilesSelected (_ :: _) => true
                           | _ => false
                           end) tr).

Definition index_settlements (tr : list Index.Event) : nat :=
  length (List.filter (fun e => match e with Index.CallSettled _ _ => true | _ => false end) tr).

Definition part000_settlements (tr : list Part000.Event) : nat :=
  length (List.filter (fun e => match e with Part000.CallSettled _ _ => true | _ => false end) tr).

(** * Properties of the controller *)

(** ** The rendered phase in terms of the state cells *)

Lemma index_phase_cells (a : Index.App) :
  Index.phase a =
    if negb (truthy_text (Index.image a)) then Idle
    else if Index.analyzing a then Processing
    else if truthy_data (Index.data a) then Result
    else Blank.
Proof.
  unfold Index.phase, Index.render.
  destruct a as [l an im d]; simpl.
  destruct (truthy_text im), an, d as [d|]; simpl; try reflexivity;
    destruct (truthy d); reflexivity.
Qed.

Lemma part000_phase_cells (a : Part000.App) :
  Part000.phase a =
    if negb (Part000.truthy_images (Part000.images a)) then Idle
    else if Part000.isProcessing a then Processing
    else if truthy_data (Part000.data a) then Result
    else Blank.
Proof.
  unfold Part000.phase, Part000.render.
  destruct a as [l pr im d]; simpl.
  destruct (Part000.truthy_images im), pr, d as [d|]; simpl; try reflexivity;
    destruct (truthy d); reflexivity.
Qed.

(** The three blocks exclude one another. *)
Lemma index_render_at_most_one (a : Index.App) : (length (Index.render a) ≤ 1)%nat.
Proof.
  unfold Index.render. destruct a as [l an im d]; simpl.
  destruct (truthy_text im), an, d as [d|]; simpl; try lia;
    destruct (truthy d); simpl; lia.
Qed.

Lemma part000_render_at_most_one (a : Part000.App) : (length (Part000.render a) ≤ 1)%nat.
Proof.
  unfold Part000.render. destruct a as [l pr im d]; simpl.
  destruct (Part000.truthy_images im), pr, d as [d|]; simpl; try lia;
    destruct (truthy d); simpl; lia.
Qed.

Lemma index_render_result (a : Index.App) (d : JsValue) :
  Index.phase a = Result → Index.data a = Some d → Index.render a = [ResultView d].
Proof.
  unfold Index.phase, Index.render. destruct a as [l an im dd]; simpl.
  intros H ->. revert H.
  destruct (truthy_text im), an, (truthy d); simpl; intros H; try discriminate H.
  reflexivity.
Qed.

Lemma part000_render_result (a : Part000.App) (d : JsValue) :
  Part000.phase a = Result → Part000.data a = Some d →
  Part000.render a = [ResultView d].
Proof.
  unfold Part000.phase, Part000.render. destruct a as [l pr im dd]; simpl.
  intros H ->. revert H.
  destruct (Part000.truthy_images im), pr, (truthy d); simpl; intros H;
    try discriminate H.
  reflexivity.
Qed.

(** A data URL is never the empty string. *)
Lemma readAsDataURL_truthy (f : File) : truthy_text (Some (readAsDataURL f)) = true.
Proof. reflexivity. Qed.

(** ** The schema and the interface agree *)

Lemma conforms_object_truthy (v : JsValue) :
  conforms plantSchema v = true → truthy v = true ∧ nullable v = Some v.
Proof. destruct v; simpl; intros H; try discriminate H. split; reflexivity. Qed.

Lemma conforms_strings (l : list JsValue) :
  forallb (conforms (STRING None)) l = true → is_Some (mapM asString l).
Proof.
  induction l as [|v l IH]; simpl; intros H.
  - eexists; reflexivity.
  - apply andb_true_iff in H as [Hv Hl].
    destruct (IH Hl) as [ss Hss].
    destruct v; simpl in Hv; try discriminate Hv.
    exists (s :: ss). simpl. rewrite Hss. reflexivity.
Qed.

Lemma conforms_health (s : string) :
  existsb (String.eqb s) ["Healthy"; "Needs Attention"; "Sick"; "Unknown"] = true →
  is_Some (asHealthStatus (JStr s)).
Proof.
  cbn [existsb asHealthStatus].
  destruct (s =? "Healthy"); [eauto|].
  destruct (s =? "Needs Attention"); [eauto|].
  destruct (s =? "Sick"); [eauto|].
  destruct (s =? "Unknown"); [eauto|].
  discriminate.
Qed.

Lemma conforms_level (s : string) :
  existsb (String.eqb s) ["Low"; "Medium"; "High"] = true →
  is_Some (asLevel (JStr s)).
Proof.
  cbn [existsb asLevel].
  destruct (s =? "Low"); [eauto|].
  destruct (s =? "Medium"); [eauto|].
  destruct (s =? "High"); [eauto|].
  discriminate.
Qed.

(** A required, declared property of a conforming object is present and
    conforms to its own schema. *)
Lemma conforms_field properties required ps (k : string) (sch : Schema) :
  conforms (OBJECT properties required) (JObj ps) = true →
  In k required → In (k, sch) properties →
  ∃ fv, prop k ps = Some fv ∧ conforms sch fv = true.
Proof.
  cbn [conforms]. intros H Hk Hp.
  apply andb_true_iff in H as [Hreq Hprops].
  rewrite forallb_forall in Hreq. rewrite forallb_forall in Hprops.
  specialize (Hreq k Hk). specialize (Hprops (k, sch) Hp). cbn beta iota in Hprops.
  destruct (prop k ps) as [fv|]; [|discriminate Hreq].
  exists fv. split; [reflexivity | exact Hprops].
Qed.

Lemma conforms_asString (v : JsValue) :
  conforms (STRING None) v = true → is_Some (asString v).
Proof. destruct v; try discriminate. eauto. Qed.

Lemma conforms_asStrings (v : JsValue) :
  conforms (ARRAY (STRING None)) v = true → is_Some (asStrings v).
Proof.
  destruct v; try discriminate. cbn [conforms asStrings]. apply conforms_strings.
Qed.

Lemma conforms_asHealthStatus (v : JsValue) :
  conforms (STRING (Some ["Healthy"; "Needs Attention"; "Sick"; "Unknown"])) v = true →
  is_Some (asHealthStatus v).
Proof. destruct v; try discriminate. cbn [conforms]. apply conforms_health. Qed.

Lemma conforms_asLevel (v : JsValue) :
  conforms (STRING (Some ["Low"; "Medium"; "High"])) v = true →
  is_Some (asLevel v).
Proof. destruct v; try discriminate. cbn [conforms]. apply conforms_level. Qed.

Ltac field H k sch lem :=
  let fv := fresh "fv" in
  let E := fresh "E" in
  let Hv := fresh "Hv" in
  let x := fresh "x" in
  let Hx := fresh "Hx" in
  destruct (conforms_field _ _ _ k sch H) as (fv & E & Hv);
  [ cbn [In]; tauto | cbn [In]; tauto | ];
  destruct (lem fv Hv) as [x Hx];
  rewrite E; cbn [mbind option_bind]; rewrite Hx; cbn [mbind option_bind];
  clear E Hv Hx.

Lemma conforms_asCareGuide (v : JsValue) :
  conforms (OBJECT
         [ ("light", STRING None);
           ("water", STRING None);
           ("soil", STRING None);
           ("temp", STRING None) ]
         ["light"; "water"; "soil"; "temp"]) v = true → is_Some (asCareGuide v).
Proof.
  destruct v as [| | | |?|ps]; try discriminate.
  intros H. unfold asCareGuide.
  field H "light" (STRING None) conforms_asString.
  field H "water" (STRING None) conforms_asString.
  field H "soil" (STRING None) conforms_asString.
  field H "temp" (STRING None) conforms_asString.
  eexists; reflexivity.
Qed.

(** Every value that conforms to [plantSchema] has the shape of the interface
    [PlantData]. *)
Lemma conforms_asPlantData (v : JsValue) :
  conforms plantSchema v = true → is_Some (asPlantData v).
Proof.
  destruct v as [| | | |?|ps]; try discriminate.
  unfold plantSchema. intros H. unfold asPlantData.
  field H "name" (STRING None) conforms_asString.
  field H "scientificName" (STRING None) conforms_asString.
  field H "healthStatus" (STRING (Some ["Healthy"; "Needs Attention"; "Sick"; "Unknown"]))
    conforms_asHealthStatus.
  field H "riskLevel" (STRING (Some ["Low"; "Medium"; "High"])) conforms_asLevel.
  field H "symptoms" (ARRAY (STRING None)) conforms_asStrings.
  field H "causes" (ARRAY (STRING None)) conforms_asStrings.
  field H "urgency" (STRING (Some ["Low"; "Medium"; "High"])) conforms_asLevel.
  field H "care" (OBJECT
         [ ("light", STRING None);
           ("water", STRING None);
           ("soil", STRING None);
           ("temp", STRING None) ]
         ["light"; "water"; "soil"; "temp"]) conforms_asCareGuide.
  field H "diagnosisSteps" (ARRAY (STRING None)) conforms_asStrings.
  field H "treatmentIngredients" (ARRAY (STRING None)) conforms_asStrings.
  field H "funFact" (STRING None) conforms_asString.
  eexists; reflexivity.
Qed.

(** ** Settlement of a request *)

Section Settlement.
Variable JSON_parse : string → option JsValue.

Lemma truthy_text_nonempty (s : string) : truthy_text (Some s) = true ↔ s ≠ "".
Proof.
  cbn [truthy_text]. rewrite negb_true_iff. apply String.eqb_neq.
Qed.

Lemma index_try_throws (o : Outcome) (w : Index.World) :
  Index.analyzePlant_try JSON_parse o w = Threw ↔ call_throws JSON_parse o.
Proof.
  unfold call_throws, Index.analyzePlant_try. split.
  - destruct o as [|[s|]]; [left; reflexivity | | discriminate].
    destruct (truthy_text (Some s)) eqn:Ht; [|discriminate].
    destruct (JSON_parse s) eqn:Hp; [discriminate|]. intros _. right.
    exists s. split; [reflexivity|]. split; [|exact Hp].
    apply truthy_text_nonempty, Ht.
  - intros [->|(s & -> & Hs & Hp)]; [reflexivity|].
    apply truthy_text_nonempty in Hs. rewrite Hs, Hp. reflexivity.
Qed.

Lemma part000_callGemini_throws (o : Outcome) :
  Part000.callGemini JSON_parse o = Threw ↔ call_throws JSON_parse o.
Proof.
  unfold call_throws, Part000.callGemini. split.
  - destruct o as [|[s|]]; [left; reflexivity | | discriminate].
    destruct (truthy_text (Some s)) eqn:Ht; [|discriminate].
    destruct (JSON_parse s) eqn:Hp; [discriminate|]. intros _. right.
    exists s. split; [reflexivity|]. split; [|exact Hp].
    apply truthy_text_nonempty, Ht.
  - intros [->|(s & -> & Hs & Hp)]; [reflexivity|].
    apply truthy_text_nonempty in Hs. rewrite Hs, Hp. reflexivity.
Qed.

(** What a throwing request does to the world, as one equation. *)
Lemma index_settle_throws (w : Index.World) k c o :
  Index.calls w !! k = Some c → call_throws JSON_parse o →
  Index.settle JSON_parse k o w =
    Index.upd (Index.setAnalyzing false)
      (Index.upd (Index.setImage None)
         (Index.alert (Index.error (Index.translations (Index.call_lang c)))
            (Index.console_error (Index.with_calls (delete k (Index.calls w)) w)))).
Proof.
  intros Hc Ho. unfold Index.settle, Index.analyzePlant_resume. rewrite Hc.
  apply (index_try_throws o (Index.with_calls (delete k (Index.calls w)) w)) in Ho.
  rewrite Ho. reflexivity.
Qed.

Lemma part000_settle_throws (w : Part000.World) k c o :
  Part000.calls w !! k = Some c → call_throws JSON_parse o →
  Part000.settle JSON_parse k o w =
    Part000.upd (Part000.setIsProcessing false)
      (Part000.upd (Part000.setImages None)
         (Part000.alert (Part000.error (Part000.translations (Part000.call_lang c)))
            (Part000.console_error
               (Part000.with_calls (delete k (Part000.calls w)) w)))).
Proof.
  intros Hc Ho. unfold Part000.settle, Part000.startSimulationAndAnalysis_resume.
  rewrite Hc. apply part000_callGemini_throws in Ho. rewrite Ho. reflexivity.
Qed.

(** An absent or empty response text: neither branch of the [try] writes a
    state cell, only the [finally] does. *)
Lemma index_settle_empty (w : Index.World) k c text :
  Index.calls w !! k = Some c → truthy_text text = false →
  Index.settle JSON_parse k (Responded text) w =
    Index.upd (Index.setAnalyzing false)
      (Index.with_calls (delete k (Index.calls w)) w).
Proof.
  intros Hc Ht. unfold Index.settle, Index.analyzePlant_resume,
    Index.analyzePlant_try. rewrite Hc.
  destruct text as [s|]; [rewrite Ht|]; reflexivity.
Qed.

Lemma part000_settle_empty (w : Part000.World) k c text :
  Part000.calls w !! k = Some c → truthy_text text = false →
  Part000.settle JSON_parse k (Responded text) w =
    Part000.upd (Part000.setIsProcessing false)
      (Part000.with_calls (delete k (Part000.calls w)) w).
Proof.
  intros Hc Ht. unfold Part000.settle, Part000.startSimulationAndAnalysis_resume,
    Part000.callGemini. rewrite Hc.
  destruct text as [s|]; [rewrite Ht|]; reflexivity.
Qed.

(** A response that parses to a truthy value. *)
Lemma index_settle_parsed (w : Index.World) k c s v :
  Index.calls w !! k = Some c → s ≠ "" → JSON_parse s = Some v →
  Index.settle JSON_parse k (Responded (Some s)) w =
    Index.upd (Index.setAnalyzing false)
      (Index.upd (Index.setData (nullable v))
         (Index.with_calls (delete k (Index.calls w)) w)).
Proof.
  intros Hc Hs Hp. unfold Index.settle, Index.analyzePlant_resume,
    Index.analyzePlant_try. rewrite Hc.
  apply truthy_text_nonempty in Hs. rewrite Hs, Hp. reflexivity.
Qed.

Lemma part000_settle_parsed (w : Part000.World) k c s v :
  Part000.calls w !! k = Some c → s ≠ "" → JSON_parse s = Some v →
  truthy v = true →
  Part000.settle JSON_parse k (Responded (Some s)) w =
    Part000.upd (Part000.setIsProcessing false)
      (Part000.upd (Part000.setData (Some v))
         (Part000.with_calls (delete k (Part000.calls w)) w)).
Proof.
  intros Hc Hs Hp Hv. unfold Part000.settle,
    Part000.startSimulationAndAnalysis_resume, Part000.callGemini. rewrite Hc.
  apply truthy_text_nonempty in Hs. rewrite Hs, Hp, Hv. reflexivity.
Qed.

End Settlement.

(** ** The handlers, one step at a time *)

Section Controller.
Variable JSON_parse : string → option JsValue.

(** A settlement never adds a request. *)
Lemma index_settle_calls (w : Index.World) k o :
  (length (Index.calls (Index.settle JSON_parse k o w)) ≤ length (Index.calls w))%nat.
Proof.
  unfold Index.settle. destruct (Index.calls w !! k) as [c|] eqn:Hc; [|lia].
  assert (Index.calls (Index.analyzePlant_resume JSON_parse c o
            (Index.with_calls (delete k (Index.calls w)) w))
          = delete k (Index.calls w)) as ->.
  { unfold Index.analyzePlant_resume.
    destruct (Index.analyzePlant_try JSON_parse o _) eqn:Ht; [|reflexivity].
    unfold Index.analyzePlant_try in Ht.
    destruct o as [|[s|]]; [discriminate | | injection Ht as <-; reflexivity].
    destruct (truthy_text (Some s)); [|injection Ht as <-; reflexivity].
    destruct (JSON_parse s); [injection Ht as <-; reflexivity | discriminate]. }
  rewrite length_delete; [lia | eauto].
Qed.

Lemma part000_settle_calls (w : Part000.World) k o :
  (length (Part000.calls (Part000.settle JSON_parse k o w))
   ≤ length (Part000.calls w))%nat.
Proof.
  unfold Part000.settle. destruct (Part000.calls w !! k) as [c|] eqn:Hc; [|lia].
  assert (Part000.calls (Part000.startSimulationAndAnalysis_resume JSON_parse c o
            (Part000.with_calls (delete k (Part000.calls w)) w))
          = delete k (Part000.calls w)) as ->.
  { unfold Part000.startSimulationAndAnalysis_resume.
    destruct (Part000.callGemini JSON_parse o) as [r|]; [|reflexivity].
    destruct (truthy r); reflexivity. }
  rewrite length_delete; [lia | eauto].
Qed.





End Controller.

(** ** [Promise.all] over the readers of one upload *)

Section Join.
Import Part000.

Lemma values_with_lookup (todo : list nat) (files : list File) (i : nat) :
  values_with todo files !! i =
    (fun file => if bool_decide (i ∈ todo) then None else Some (readAsDataURL file))
      <$> files !! i.
Proof. unfold values_with. apply list_lookup_imap. Qed.

Lemma values_with_insert (todo : list nat) (files : list File) (i : nat) (file : File) :
  files !! i = Some file → i ∉ todo →
  <[i := Some (readAsDataURL file)]> (values_with (i :: todo) files)
  = values_with todo files.
Proof.
  intros Hf Hi. apply list_eq. intros j. destruct (decide (i = j)) as [<-|Hne].
  - rewrite list_lookup_insert_eq.
    + rewrite values_with_lookup, Hf. cbn.
      rewrite bool_decide_eq_false_2 by exact Hi. reflexivity.
    + unfold values_with. rewrite length_imap. eapply lookup_lt_Some, Hf.
  - rewrite list_lookup_insert_ne by exact Hne.
    rewrite !values_with_lookup. destruct (files !! j) as [g|]; [|reflexivity].
    cbn. f_equal.
    rewrite (bool_decide_ext (j ∈ i :: todo) (j ∈ todo)); [reflexivity|].
    rewrite elem_of_cons. split; [intros [->|H]; [contradiction Hne; reflexivity|exact H]|].
    intros H. right. exact H.
Qed.

(** Once every promise is resolved, [Promise.all] is fulfilled with the
    buffers in the order of the files. *)
Lemma Promise_all_done (files : list File) :
  Promise_all (values_with [] files) = Some (readAsDataURL <$> files).
Proof.
  assert (values_with [] files = Some <$> (readAsDataURL <$> files)) as ->.
  { apply list_eq. intros j. rewrite values_with_lookup, !list_lookup_fmap.
    destruct (files !! j); reflexivity. }
  unfold Promise_all. apply mapM_fmap_Some. reflexivity.
Qed.

(** While a reader is still running, [Promise.all] is pending. *)
Lemma Promise_all_pending (todo : list nat) (files : list File) (j : nat) :
  j ∈ todo → (j < length files)%nat → Promise_all (values_with todo files) = None.
Proof.
  intros Hj Hlt. unfold Promise_all. apply mapM_None_2, Exists_exists.
  exists None. split; [|reflexivity].
  apply list_elem_of_lookup. exists j.
  destruct (lookup_lt_is_Some_2 files j Hlt) as [f Hf].
  rewrite values_with_lookup, Hf. cbn.
  rewrite bool_decide_eq_true_2 by exact Hj. reflexivity.
Qed.

Lemma values_with_all (order : list nat) (files : list File) :
  (∀ i, (i < length files)%nat → i ∈ order) →
  replicate (length files) None = values_with order files.
Proof.
  intros Hall. apply list_eq. intros j. rewrite values_with_lookup.
  destruct (decide (j < length files)%nat) as [Hlt|Hge].
  - rewrite lookup_replicate_2 by exact Hlt.
    destruct (lookup_lt_is_Some_2 files j Hlt) as [f ->]. cbn.
    rewrite bool_decide_eq_true_2 by (apply Hall, Hlt). reflexivity.
  - rewrite (proj1 (lookup_replicate_None _ _ _)) by lia.
    rewrite (proj2 (lookup_ge_None files j)) by lia. reflexivity.
Qed.

(** One reader of the last upload fires: either it was the last one and the
    [then] callback runs, or its value is stored. *)
Lemma onloadend_last_upload (U : list Upload) (files : list File) (l : Lang)
    (i : nat) (todo : list nat) (x : World) :
  uploads x = U ++ [upload_with (i :: todo) files l] →
  (i < length files)%nat → i ∉ todo →
  (∀ j, j ∈ todo → (j < length files)%nat) →
  onloadend (length U) i x =
    match todo with
    | [] =>
        startSimulationAndAnalysis (readAsDataURL <$> files) l
          (upd (setImages (Some (readAsDataURL <$> files))) (with_uploads U x))
    | _ :: _ => with_uploads (U ++ [upload_with todo files l]) x
    end.
Proof.
  intros Hup Hi Hnot Hlt. unfold onloadend.
  rewrite Hup, (list_lookup_middle U [] _ (length U) eq_refl).
  cbn [upload_with upload_files upload_values upload_lang].
  destruct (lookup_lt_is_Some_2 files i Hi) as [f Hf]. rewrite Hf.
  rewrite values_with_lookup, Hf. cbn [fmap option_fmap option_map].
  rewrite bool_decide_eq_true_2 by (apply elem_of_cons; left; reflexivity).
  rewrite (values_with_insert todo files i f Hf Hnot).
  destruct todo as [|j todo'].
  - rewrite Promise_all_done, delete_middle, app_nil_r. reflexivity.
  - rewrite (Promise_all_pending (j :: todo') files j);
      [|apply elem_of_cons; left; reflexivity
       |apply Hlt, elem_of_cons; left; reflexivity].
    rewrite insert_app_r_alt by lia. rewrite Nat.sub_diag. reflexivity.
Qed.

(** All remaining readers of the last upload fire, in any order. *)
Lemma readers_finish_joins (U : list Upload) (files : list File) (l : Lang) :
  ∀ (todo : list nat) (x : World),
    todo ≠ [] → NoDup todo → (∀ j, j ∈ todo → (j < length files)%nat) →
    uploads x = U ++ [upload_with todo files l] →
    readers_finish (length U) todo x =
      startSimulationAndAnalysis (readAsDataURL <$> files) l
        (upd (setImages (Some (readAsDataURL <$> files))) (with_uploads U x)).
Proof.
  induction todo as [|i todo IH]; intros x Hne Hnd Hlt Hup; [contradiction Hne; reflexivity|].
  apply NoDup_cons in Hnd as [Hi Hnd].
  unfold readers_finish in *. cbn [foldl].
  rewrite (onloadend_last_upload U files l i todo x Hup);
    [|apply Hlt, elem_of_cons; left; reflexivity|exact Hi
     |intros j Hj; apply Hlt, elem_of_cons; right; exact Hj].
  destruct todo as [|j todo']; [reflexivity|].
  rewrite IH; [reflexivity|discriminate|exact Hnd| |reflexivity].
  intros j' Hj'. apply Hlt, elem_of_cons. right. exact Hj'.
Qed.

(** As long as a reader is still running, no request is sent and no state
    cell is written. *)
Lemma readers_finish_waits (U : list Upload) (files : list File) (l : Lang) :
  ∀ (before after : list nat) (x : World),
    after ≠ [] → NoDup (before ++ after) →
    (∀ j, j ∈ before ++ after → (j < length files)%nat) →
    uploads x = U ++ [upload_with (before ++ after) files l] →
    readers_finish (length U) before x
    = with_uploads (U ++ [upload_with after files l]) x.
Proof.
  induction before as [|i before IH]; intros after x Hne Hnd Hlt Hup.
  - cbn in *. destruct x; cbn in *. subst. reflexivity.
  - cbn [app] in *. apply NoDup_cons in Hnd as [Hi Hnd].
    unfold readers_finish in *. cbn [foldl].
    rewrite (onloadend_last_upload U files l i (before ++ after) x Hup);
      [|apply Hlt, elem_of_cons; left; reflexivity|exact Hi
       |intros j Hj; apply Hlt, elem_of_cons; right; exact Hj].
    destruct (before ++ after) as [|j rest] eqn:E.
    { apply app_eq_nil in E as [_ ->]. contradiction Hne; reflexivity. }
    rewrite <- E in *.
    rewrite (IH after _ Hne Hnd); [reflexivity| |reflexivity].
    intros j' Hj'. apply Hlt, elem_of_cons. right. exact Hj'.
Qed.

(** A non-empty selection is submitted and all its readers fire, in any
    order: the [then] callback has run with the data URLs of the files in
    the order of the files. *)
Lemma upload_joins (w : World) (files : list File) (order : list nat) :
  files ≠ [] → order ≡ₚ seq 0 (length files) →
  uploads (handleImageUpload files w)
  = uploads w ++ [upload_with order files (lang (app w))]
  ∧ readers_finish (length (uploads w)) order (handleImageUpload files w)
    = startSimulationAndAnalysis (readAsDataURL <$> files) (lang (app w))
        (upd (setImages (Some (readAsDataURL <$> files)))
           (with_uploads (uploads w) (handleImageUpload files w))).
Proof.
  intros Hfiles Hperm.
  assert (NoDup order) as Hnd by (rewrite Hperm; apply NoDup_seq).
  assert (∀ j, j ∈ order → (j < length files)%nat) as Hin.
  { intros j. rewrite Hperm, elem_of_seq. lia. }
  assert (∀ j, (j < length files)%nat → j ∈ order) as Hall.
  { intros j. rewrite Hperm, elem_of_seq. lia. }
  assert (order ≠ []) as Hne.
  { intros ->. apply Permutation_length in Hperm. rewrite length_seq in Hperm.
    destruct files; [contradiction Hfiles; reflexivity|discriminate Hperm]. }
  assert (uploads (handleImageUpload files w)
          = uploads w ++ [upload_with order files (lang (app w))]) as Hup.
  { destruct files as [|f fs]; [contradiction Hfiles; reflexivity|].
    cbn [handleImageUpload with_uploads uploads]. unfold upload_with.
    rewrite <- values_with_all; [reflexivity|exact Hall]. }
  split; [exact Hup|].
  rewrite (readers_finish_joins (uploads w) files (lang (app w)) order _ Hne Hnd Hin Hup).
  destruct files as [|f fs]; [contradiction Hfiles; reflexivity|]. reflexivity.
Qed.

End Join.

(** ** The result block *)

Lemma result_panels_treatment (pd : PlantData) :
  (Treatment (treatmentIngredients pd) ∈ result_panels pd
   ↔ treatmentIngredients pd ≠ [])
  ∧ ((∃ l, Treatment l ∈ result_panels pd) ↔ treatmentIngredients pd ≠ []).
Proof.
  unfold result_panels. destruct (treatmentIngredients pd) as [|x l]; cbn.
  - split; split; try (intros H; contradiction H; reflexivity).
    + intros H. repeat (apply elem_of_cons in H as [H|H]; [discriminate H|]).
      apply elem_of_nil in H. contradiction.
    + intros [l H]. repeat (apply elem_of_cons in H as [H|H]; [discriminate H|]).
      apply elem_of_nil in H. contradiction.
  - split; split; try discriminate.
    + intros _. do 3 (apply elem_of_cons; right). apply elem_of_cons. left. reflexivity.
    + intros _. exists (x :: l).
      do 3 (apply elem_of_cons; right). apply elem_of_cons. left. reflexivity.
Qed.

(** ** The processing flag and the stored diagnosis *)

Section Invariants.
Variable JSON_parse : string → option JsValue.

Lemma index_inv_step (w : Index.World) (e : Index.Event) :
  index_inv w → index_inv (Index.step JSON_parse w e).
Proof.
  unfold index_inv. intros Hw. destruct e as [files|k|k o| |]; cbn [Index.step].
  - destruct files; exact Hw.
  - unfold Index.onloadend. destruct (Index.readers w !! k); [reflexivity|exact Hw].
  - unfold Index.settle. destruct (Index.calls w !! k); [|exact Hw].
    cbn. discriminate.
  - reflexivity.
  - exact Hw.
Qed.

Lemma index_inv_run (tr : list Index.Event) (w : Index.World) :
  index_inv w → index_inv (Index.run JSON_parse w tr).
Proof.
  revert w. induction tr as [|e tr IH]; intros w Hw; [exact Hw|].
  apply IH, index_inv_step, Hw.
Qed.

Lemma part000_resume_frame (c : Part000.Call) (o : Outcome) (w : Part000.World) :
  let w' := Part000.startSimulationAndAnalysis_resume JSON_parse c o w in
  Part000.isProcessing (Part000.app w') = false
  ∧ Part000.uploads w' = Part000.uploads w
  ∧ Part000.calls w' = Part000.calls w.
Proof.
  unfold Part000.startSimulationAndAnalysis_resume.
  destruct (Part000.callGemini JSON_parse o) as [r|]; [destruct (truthy r)|];
    repeat split; reflexivity.
Qed.

Lemma part000_inv_step (w : Part000.World) (e : Part000.Event) :
  part000_inv w →
  match e with Part000.FilesSelected _ => Part000.quiet w = true | _ => True end →
  part000_inv (Part000.step JSON_parse w e).
Proof.
  intros (Hflag & Hup & Hlen) Hq.
  destruct e as [files|k i|k o| |]; cbn [Part000.step].
  - destruct files as [|f fs]; [repeat split; assumption|].
    unfold Part000.quiet in Hq.
    destruct (Part000.uploads w) eqn:Eu; [|discriminate Hq].
    destruct (Part000.calls w) eqn:Ec; [|discriminate Hq].
    unfold part000_inv. cbn. rewrite Eu, Ec. cbn. repeat split; lia.
  - unfold Part000.onloadend.
    destruct (Part000.uploads w !! k) as [u|] eqn:Eu; [|repeat split; assumption].
    assert (Part000.uploads w ≠ []) as Hne by (intros E; rewrite E in Eu; discriminate Eu).
    assert (length (delete k (Part000.uploads w)) = length (Part000.uploads w) - 1)%nat
      as Hdel by (apply length_delete; eauto).
    assert (0 < length (Part000.uploads w))%nat as Hpos
      by (destruct (Part000.uploads w); [contradiction Hne; reflexivity | cbn; lia]).
    destruct (Part000.upload_files u !! i); [|repeat split; assumption].
    destruct (Part000.upload_values u !! i) as [[x|]|]; try (repeat split; assumption).
    destruct (Part000.Promise_all _) as [imgs|].
    + unfold part000_inv. cbn. rewrite length_app, Hdel. cbn.
      repeat split; try (intros _; apply Hup, Hne). lia.
    + unfold part000_inv. cbn. rewrite length_insert.
      repeat split; try assumption. intros _. apply Hup, Hne.
  - unfold Part000.settle.
    destruct (Part000.calls w !! k) as [c|] eqn:Ec; [|repeat split; assumption].
    assert (length (delete k (Part000.calls w)) = length (Part000.calls w) - 1)%nat
      as Hdel by (apply length_delete; eauto).
    assert (k < length (Part000.calls w))%nat as Hpos
      by (eapply lookup_lt_Some, Ec).
    destruct (part000_resume_frame c o
                (Part000.with_calls (delete k (Part000.calls w)) w)) as (Hf & Hu & Hc).
    unfold part000_inv. rewrite Hf, Hu, Hc. cbn.
    split; [discriminate|]. split; [|lia].
    intros Hne. exfalso.
    destruct (Part000.uploads w); [contradiction Hne; reflexivity | cbn in Hlen; lia].
  - unfold part000_inv. cbn. repeat split; assumption.
  - unfold part000_inv. cbn. repeat split; assumption.
Qed.

Lemma part000_inv_run (tr : list Part000.Event) (w : Part000.World) :
  part000_inv w → Part000.one_at_a_time JSON_parse w tr = true →
  part000_inv (Part000.run JSON_parse w tr).
Proof.
  revert w. induction tr as [|e tr IH]; intros w Hw Hseq; [exact Hw|].
  cbn [Part000.one_at_a_time] in Hseq. apply andb_true_iff in Hseq as [He Htr].
  apply IH; [|exact Htr]. apply part000_inv_step; [exact Hw|].
  destruct e; try exact I. exact He.
Qed.

End Invariants.

(** ** One selection at a time *)

Section Flights.
Variable JSON_parse : string → option JsValue.

Lemma index_resume_frame (c : Index.Call) (o : Outcome) (w : Index.World) :
  let w' := Index.analyzePlant_resume JSON_parse c o w in
  Index.analyzing (Index.app w') = false
  ∧ Index.readers w' = Index.readers w
  ∧ Index.calls w' = Index.calls w.
Proof.
  unfold Index.analyzePlant_resume.
  destruct (Index.analyzePlant_try JSON_parse o w) as [w0|] eqn:Ht;
    [|repeat split; reflexivity].
  unfold Index.analyzePlant_try in Ht.
  destruct o as [|[s|]];
    [discriminate Ht | | injection Ht as <-; repeat split; reflexivity].
  destruct (truthy_text (Some s)); [|injection Ht as <-; repeat split; reflexivity].
  destruct (JSON_parse s);
    [injection Ht as <-; repeat split; reflexivity | discriminate Ht].
Qed.

Lemma index_flight_inv_step (w : Index.World) (e : Index.Event) :
  index_flight_inv w →
  match e with Index.FilesSelected _ => Index.quiet w = true | _ => True end →
  index_flight_inv (Index.step JSON_parse w e).
Proof.
  intros (Hflag & Hlen & Hcall) Hq.
  destruct e as [files|k|k o| |]; cbn [Index.step].
  - destruct files as [|f fs]; [repeat split; assumption|].
    unfold Index.quiet in Hq.
    destruct (Index.readers w) eqn:Er; [|discriminate Hq].
    destruct (Index.calls w) eqn:Ec; [|discriminate Hq].
    unfold index_flight_inv. cbn. rewrite Er, Ec. cbn.
    split; [exact Hflag|]. split; [lia|]. intros H; contradiction H; reflexivity.
  - unfold Index.onloadend.
    destruct (Index.readers w !! k) as [r|] eqn:Er; [|repeat split; assumption].
    assert (length (delete k (Index.readers w)) = length (Index.readers w) - 1)%nat
      as Hdel by (apply length_delete; eauto).
    assert (k < length (Index.readers w))%nat as Hpos by (eapply lookup_lt_Some, Er).
    unfold index_flight_inv. cbn. rewrite length_app, Hdel. cbn.
    split; [reflexivity|]. split; [lia|]. reflexivity.
  - unfold Index.settle.
    destruct (Index.calls w !! k) as [c|] eqn:Ec; [|repeat split; assumption].
    assert (length (delete k (Index.calls w)) = length (Index.calls w) - 1)%nat
      as Hdel by (apply length_delete; eauto).
    assert (k < length (Index.calls w))%nat as Hpos by (eapply lookup_lt_Some, Ec).
    destruct (index_resume_frame c o
                (Index.with_calls (delete k (Index.calls w)) w)) as (Hf & Hr & Hc).
    unfold index_flight_inv. rewrite Hf, Hr, Hc. cbn.
    split; [discriminate|]. split; [lia|].
    intros Hne. exfalso. apply Hne, nil_length_inv. lia.
  - unfold index_flight_inv. cbn. split; [reflexivity|]. split; assumption.
  - unfold index_flight_inv. cbn. repeat split; assumption.
Qed.

Lemma index_flight_inv_run (tr : list Index.Event) (w : Index.World) :
  index_flight_inv w → Index.one_at_a_time JSON_parse w tr = true →
  index_flight_inv (Index.run JSON_parse w tr).
Proof.
  revert w. induction tr as [|e tr IH]; intros w Hw Hseq; [exact Hw|].
  cbn [Index.one_at_a_time] in Hseq. apply andb_true_iff in Hseq as [He Htr].
  apply IH; [|exact Htr]. apply index_flight_inv_step; [exact Hw|].
  destruct e; try exact I. exact He.
Qed.

Lemma part000_flight_inv_step (w : Part000.World) (e : Part000.Event) :
  part000_flight_inv w →
  match e with Part000.FilesSelected _ => Part000.quiet w = true | _ => True end →
  part000_flight_inv (Part000.step JSON_parse w e).
Proof.
  intros [Hinv Hcall] Hq. split; [apply part000_inv_step; assumption|].
  destruct Hinv as (Hflag & Hup & Hlen).
  destruct e as [files|k i|k o| |]; cbn [Part000.step].
  - destruct files as [|f fs]; [exact Hcall|]. reflexivity.
  - unfold Part000.onloadend.
    destruct (Part000.uploads w !! k) as [u|]; [|exact Hcall].
    destruct (Part000.upload_files u !! i); [|exact Hcall].
    destruct (Part000.upload_values u !! i) as [[x|]|]; try exact Hcall.
    destruct (Part000.Promise_all _) as [imgs|]; [reflexivity | exact Hcall].
  - unfold Part000.settle.
    destruct (Part000.calls w !! k) as [c|] eqn:Ec; [|exact Hcall].
    assert (length (delete k (Part000.calls w)) = length (Part000.calls w) - 1)%nat
      as Hdel by (apply length_delete; eauto).
    destruct (part000_resume_frame JSON_parse c o
                (Part000.with_calls (delete k (Part000.calls w)) w)) as (Hf & Hu & Hc).
    rewrite Hc. cbn. intros Hne. exfalso. apply Hne, nil_length_inv. lia.
  - exact Hcall.
  - exact Hcall.
Qed.

Lemma part000_flight_inv_run (tr : list Part000.Event) (w : Part000.World) :
  part000_flight_inv w → Part000.one_at_a_time JSON_parse w tr = true →
  part000_flight_inv (Part000.run JSON_parse w tr).
Proof.
  revert w. induction tr as [|e tr IH]; intros w Hw Hseq; [exact Hw|].
  cbn [Part000.one_at_a_time] in Hseq. apply andb_true_iff in Hseq as [He Htr].
  apply IH; [|exact Htr]. apply part000_flight_inv_step; [exact Hw|].
  destruct e; try exact I. exact He.
Qed.

Lemma index_flight_inv_boot : index_flight_inv Index.boot.
Proof.
  unfold index_flight_inv. cbn. split; [discriminate|]. split; [lia|].
  intros H. contradiction H. reflexivity.
Qed.

Lemma part000_flight_inv_boot : part000_flight_inv Part000.boot.
Proof.
  unfold part000_flight_inv, part000_inv. cbn.
  split; [split; [discriminate|split; [|lia]]|];
    intros H; contradiction H; reflexivity.
Qed.

(** Through the page, the back button is not there while a request is in
    flight, so the image cell stays set until the request settles. *)
Lemma index_solo_inv_step (w : Index.World) (e : Index.Event) :
  index_solo_inv w → Index.enabled w e = true →
  match e with Index.FilesSelected _ => Index.quiet w = true | _ => True end →
  index_solo_inv (Index.step JSON_parse w e).
Proof.
  intros [Hfl Him] Hen Hq.
  pose proof (index_flight_inv_step w e Hfl Hq) as Hfl'.
  split; [exact Hfl'|]. destruct Hfl as (Hflag & Hlen & Hcall).
  destruct e as [files|k|k o| |]; cbn [Index.step] in *.
  - destruct files as [|f fs]; exact Him.
  - unfold Index.onloadend.
    destruct (Index.readers w !! k) as [r|]; [reflexivity | exact Him].
  - unfold Index.settle.
    destruct (Index.calls w !! k) as [c|] eqn:Ec; [|exact Him].
    assert (length (delete k (Index.calls w)) = length (Index.calls w) - 1)%nat
      as Hdel by (apply length_delete; eauto).
    assert (k < length (Index.calls w))%nat as Hpos by (eapply lookup_lt_Some, Ec).
    destruct (index_resume_frame c o
                (Index.with_calls (delete k (Index.calls w)) w)) as (Hf & Hr & Hc).
    rewrite Hc. cbn. intros Hne. exfalso. apply Hne, nil_length_inv. lia.
  - intros Hne. change (Index.calls (Index.reset w)) with (Index.calls w) in Hne.
    specialize (Hcall Hne). cbn [Index.enabled] in Hen.
    apply bool_decide_eq_true in Hen. rewrite index_phase_cells, Hcall in Hen.
    destruct (negb _); discriminate Hen.
  - exact Him.
Qed.

Lemma index_solo_inv_run (tr : list Index.Event) (w : Index.World) :
  index_solo_inv w → Index.feasible JSON_parse w tr = true →
  Index.one_at_a_time JSON_parse w tr = true →
  index_solo_inv (Index.run JSON_parse w tr).
Proof.
  revert w. induction tr as [|e tr IH]; intros w Hw Hf Hseq; [exact Hw|].
  cbn [Index.feasible] in Hf. apply andb_true_iff in Hf as [Hen Hf].
  cbn [Index.one_at_a_time] in Hseq. apply andb_true_iff in Hseq as [He Htr].
  apply IH; [|exact Hf|exact Htr]. apply index_solo_inv_step; [exact Hw|exact Hen|].
  destruct e; try exact I. exact He.
Qed.

Lemma part000_solo_inv_step (w : Part000.World) (e : Part000.Event) :
  part000_solo_inv w → Part000.enabled w e = true →
  match e with Part000.FilesSelected _ => Part000.quiet w = true | _ => True end →
  part000_solo_inv (Part000.step JSON_parse w e).
Proof.
  intros [Hfl Him] Hen Hq.
  pose proof (part000_flight_inv_step w e Hfl Hq) as Hfl'.
  split; [exact Hfl'|]. destruct Hfl as ((Hflag & Hup & Hlen) & Hcall).
  destruct e as [files|k i|k o| |]; cbn [Part000.step] in *.
  - destruct files as [|f fs]; exact Him.
  - unfold Part000.onloadend.
    destruct (Part000.uploads w !! k) as [u|]; [|exact Him].
    destruct (Part000.upload_files u !! i); [|exact Him].
    destruct (Part000.upload_values u !! i) as [[x|]|]; try exact Him.
    destruct (Part000.Promise_all _) as [imgs|]; [reflexivity | exact Him].
  - unfold Part000.settle.
    destruct (Part000.calls w !! k) as [c|] eqn:Ec; [|exact Him].
    assert (length (delete k (Part000.calls w)) = length (Part000.calls w) - 1)%nat
      as Hdel by (apply length_delete; eauto).
    destruct (part000_resume_frame JSON_parse c o
                (Part000.with_calls (delete k (Part000.calls w)) w)) as (Hf & Hu & Hc).
    rewrite Hc. cbn. intros Hne. exfalso. apply Hne, nil_length_inv. lia.
  - intros Hne. change (Part000.calls (Part000.reset w)) with (Part000.calls w) in Hne.
    specialize (Hcall Hne). cbn [Part000.enabled] in Hen.
    apply bool_decide_eq_true in Hen. rewrite part000_phase_cells, Hcall in Hen.
    destruct (negb _); discriminate Hen.
  - exact Him.
Qed.

Lemma part000_solo_inv_run (tr : list Part000.Event) (w : Part000.World) :
  part000_solo_inv w → Part000.feasible JSON_parse w tr = true →
  Part000.one_at_a_time JSON_parse w tr = true →
  part000_solo_inv (Part000.run JSON_parse w tr).
Proof.
  revert w. induction tr as [|e tr IH]; intros w Hw Hf Hseq; [exact Hw|].
  cbn [Part000.feasible] in Hf. apply andb_true_iff in Hf as [Hen Hf].
  cbn [Part000.one_at_a_time] in Hseq. apply andb_true_iff in Hseq as [He Htr].
  apply IH; [|exact Hf|exact Htr]. apply part000_solo_inv_step; [exact Hw|exact Hen|].
  destruct e; try exact I. exact He.
Qed.

(** A conforming response, whatever the phase it arrives in. *)
Lemma index_settle_conforming (w : Index.World) k c s v :
  Index.calls w !! k = Some c →
  s ≠ "" → JSON_parse s = Some v → conforms plantSchema v = true →
  let w' := Index.settle JSON_parse k (Responded (Some s)) w in
  Index.data (Index.app w') = Some v
  ∧ is_Some (asPlantData v)
  ∧ Index.analyzing (Index.app w') = false
  ∧ Index.image (Index.app w') = Index.image (Index.app w)
  ∧ Index.alerts w' = Index.alerts w
  ∧ (truthy_text (Index.image (Index.app w)) = true →
     Index.phase (Index.app w') = Result
     ∧ Index.render (Index.app w') = [ResultView v])
  ∧ (truthy_text (Index.image (Index.app w)) = false →
     Index.phase (Index.app w') = Idle
     ∧ Index.render (Index.app w') = [LandingView]).
Proof.
  intros Hc Hs Hp Hv w'; subst w'.
  destruct (conforms_object_truthy v Hv) as [Htr Hnn].
  pose proof (conforms_asPlantData v Hv) as Hpd.
  rewrite (index_settle_parsed JSON_parse w k c s v Hc Hs Hp), Hnn.
  destruct w as [[l an im d] rs cs al co]; cbn in *.
  unfold Index.phase, Index.render; cbn. rewrite Htr.
  split; [reflexivity|]. split; [exact Hpd|]. do 3 (split; [reflexivity|]).
  split; intros Him; rewrite Him; cbn; split; reflexivity.
Qed.

Lemma part000_settle_conforming (w : Part000.World) k c s v :
  Part000.calls w !! k = Some c →
  s ≠ "" → JSON_parse s = Some v → conforms plantSchema v = true →
  let w' := Part000.settle JSON_parse k (Responded (Some s)) w in
  Part000.data (Part000.app w') = Some v
  ∧ is_Some (asPlantData v)
  ∧ Part000.isProcessing (Part000.app w') = false
  ∧ Part000.images (Part000.app w') = Part000.images (Part000.app w)
  ∧ Part000.alerts w' = Part000.alerts w
  ∧ (Part000.truthy_images (Part000.images (Part000.app w)) = true →
     Part000.phase (Part000.app w') = Result
     ∧ Part000.render (Part000.app w') = [ResultView v])
  ∧ (Part000.truthy_images (Part000.images (Part000.app w)) = false →
     Part000.phase (Part000.app w') = Idle
     ∧ Part000.render (Part000.app w') = [LandingView]).
Proof.
  intros Hc Hs Hp Hv w'; subst w'.
  destruct (conforms_object_truthy v Hv) as [Htr Hnn].
  pose proof (conforms_asPlantData v Hv) as Hpd.
  rewrite (part000_settle_parsed JSON_parse w k c s v Hc Hs Hp Htr).
  destruct w as [[l pr im d] us cs al co]; cbn in *.
  unfold Part000.phase, Part000.render; cbn. rewrite Htr.
  split; [reflexivity|]. split; [exact Hpd|]. do 3 (split; [reflexivity|]).
  split; intros Him; rewrite Him; cbn; split; reflexivity.
Qed.

(** The result block needs a stored diagnosis. *)
Lemma index_no_result_without_data (a : Index.App) (d : JsValue) :
  Index.data a = None → ResultView d ∉ Index.render a.
Proof.
  destruct a as [l an im dd]; cbn. intros ->. unfold Index.render; cbn.
  destruct (truthy_text im), an; cbn; intros H;
    repeat (apply elem_of_cons in H as [H|H]; [discriminate H|]);
    apply elem_of_nil in H; exact H.
Qed.

Lemma part000_no_result_without_data (a : Part000.App) (d : JsValue) :
  Part000.data a = None → ResultView d ∉ Part000.render a.
Proof.
  destruct a as [l pr im dd]; cbn. intros ->. unfold Part000.render; cbn.
  destruct (Part000.truthy_images im), pr; cbn; intros H;
    repeat (apply elem_of_cons in H as [H|H]; [discriminate H|]);
    apply elem_of_nil in H; exact H.
Qed.

End Flights.

(** ** The claims at concrete inputs *)

Section Examples.
Import Sample.

Example healthy_text_begins :
  String.substring 0 18 healthy_text = "{" +:+ quoted "name" +:+ ":" +:+ quoted "Monstera".
Proof. reflexivity. Qed.

Example samples_conform :
  conforms plantSchema healthy = true ∧ conforms plantSchema sick = true
  ∧ mock_parse healthy_text = Some healthy ∧ mock_parse sick_text = Some sick
  ∧ mock_parse "<html>" = None
  ∧ asPlantData healthy = Some healthy_data ∧ asPlantData sick = Some sick_data.
Proof. repeat split; reflexivity. Qed.

(** One photo has been selected and read, the request is in flight. *)
Example index_processing :
  Index.run mock_parse Index.boot [Index.FilesSelected [photo]; Index.ReaderLoaded 0]
  = {| Index.app := {| Index.lang := zh; Index.analyzing := true;
                       Index.image := Some (readAsDataURL photo);
                       Index.data := None |};
       Index.readers := [];
       Index.calls := [{| Index.call_image := readAsDataURL photo;
                          Index.call_lang := zh |}];
       Index.alerts := []; Index.console := 0 |}.
Proof. reflexivity. Qed.

(** Two photos have been selected, the second one was read first. *)
Example part000_processing :
  Part000.run mock_parse Part000.boot
    [Part000.FilesSelected [photo; closeup];
     Part000.ReaderLoaded 0 1; Part000.ReaderLoaded 0 0]
  = {| Part000.app := {| Part000.lang := zh; Part000.isProcessing := true;
                         Part000.images :=
                           Some [readAsDataURL photo; readAsDataURL closeup];
                         Part000.data := None |};
       Part000.uploads := [];
       Part000.calls :=
         [{| Part000.call_images := [readAsDataURL photo; readAsDataURL closeup];
             Part000.call_lang := zh |}];
       Part000.alerts := []; Part000.console := 0 |}.
Proof. reflexivity. Qed.

(** The scenario of the healthy plant, end to end: the result block is
    shown and it has no treatment panel. *)
Example healthy_scenario :
  let w := Part000.run mock_parse Part000.boot
             [Part000.FilesSelected [photo]; Part000.ReaderLoaded 0 0;
              Part000.CallSettled 0 (Responded (Some healthy_text))] in
  Part000.render (Part000.app w) = [ResultView healthy]
  ∧ (result_panels <$> asPlantData healthy)
    = Some [ SummaryCards [] [] Low "Its leaves develop holes as they mature.";
             CareGrid {| light := "Bright, indirect"; water := "Weekly";
                         soil := "Well-draining"; temp := "18-27 C" |};
             Timeline ["Keep the current routine"] ].
Proof. split; reflexivity. Qed.

(** The scenario of the throwing service, end to end. *)
Example throwing_scenario :
  let w := Part000.run mock_parse Part000.boot
             [Part000.FilesSelected [photo]; Part000.ReaderLoaded 0 0;
              Part000.CallSettled 0 Rejected] in
  Part000.render (Part000.app w) = [LandingView]
  ∧ Part000.alerts w = [Part000.error (Part000.translations zh)].
Proof. split; reflexivity. Qed.

End Examples.

(** * The claims *)

(** C1.  The behaviour at the failing input: one file is selected, its
    reader finishes, and the response carries no text ([undefined]) or the
    empty text.  In both revisions none of the three blocks is rendered
    afterwards (the phase is neither Idle, Processing nor Result), no [alert]
    has fired, the captured image(s) are still stored, and none of the three
    buttons is on the page. *)
Theorem C1_empty_response_strands_the_page
    (JSON_parse : string → option JsValue) (file : File) (rest : list File) :
  let index_end text :=
    Index.run JSON_parse Index.boot
      [Index.FilesSelected (file :: rest); Index.ReaderLoaded 0;
       Index.CallSettled 0 (Responded text)] in
  let part000_end text :=
    Part000.run JSON_parse Part000.boot
      [Part000.FilesSelected [file]; Part000.ReaderLoaded 0 0;
       Part000.CallSettled 0 (Responded text)] in
  let index_stranded w :=
    Index.render (Index.app w) = []
    ∧ Index.phase (Index.app w) = Blank
    ∧ Index.alerts w = []
    ∧ Index.image (Index.app w) = Some (readAsDataURL file)
    ∧ Index.enabled w (Index.FilesSelected [file]) = false
    ∧ Index.enabled w Index.ResetClicked = false
    ∧ Index.enabled w Index.LanguageClicked = false in
  let part000_stranded w :=
    Part000.render (Part000.app w) = []
    ∧ Part000.phase (Part000.app w) = Blank
    ∧ Part000.alerts w = []
    ∧ Part000.images (Part000.app w) = Some [readAsDataURL file]
    ∧ Part000.enabled w (Part000.FilesSelected [file]) = false
    ∧ Part000.enabled w Part000.ResetClicked = false
    ∧ Part000.enabled w Part000.LanguageClicked = false in
  index_stranded (index_end None) ∧ index_stranded (index_end (Some ""))
  ∧ part000_stranded (part000_end None) ∧ part000_stranded (part000_end (Some "")).
Proof.
  cbv zeta. repeat split; reflexivity.
Qed.

(** Counterexample to C2 as stated.  The response is the text of the JSON
    document with the single field [name]: [JSON.parse] accepts it and the
    document does not conform to [plantSchema].  Neither revision throws:
    no [alert] fires, [console.error] is not called, the captured image(s)
    stay stored, the flag is cleared, the partial document is written to the
    diagnosis cell, and the landing block does not come back. *)
Lemma C2_counterexample :
  let tr1 := [Index.FilesSelected [Sample.photo]; Index.ReaderLoaded 0;
              Index.CallSettled 0 (Responded (Some Sample.partial_text))] in
  let tr2 := [Part000.FilesSelected [Sample.photo]; Part000.ReaderLoaded 0 0;
              Part000.CallSettled 0 (Responded (Some Sample.partial_text))] in
  let w1 := Index.run Sample.lenient_parse Index.boot tr1 in
  let w2 := Part000.run Sample.lenient_parse Part000.boot tr2 in
  (Sample.lenient_parse Sample.partial_text = Some Sample.partial
   ∧ conforms plantSchema Sample.partial = false
   ∧ asPlantData Sample.partial = None)
  ∧ (Index.feasible Sample.lenient_parse Index.boot tr1 = true
     ∧ Index.alerts w1 = []
     ∧ Index.console w1 = 0%nat
     ∧ Index.image (Index.app w1) = Some (readAsDataURL Sample.photo)
     ∧ Index.analyzing (Index.app w1) = false
     ∧ Index.data (Index.app w1) = Some Sample.partial
     ∧ Index.phase (Index.app w1) ≠ Idle
     ∧ LandingView ∉ Index.render (Index.app w1))
  ∧ (Part000.feasible Sample.lenient_parse Part000.boot tr2 = true
     ∧ Part000.alerts w2 = []
     ∧ Part000.console w2 = 0%nat
     ∧ Part000.images (Part000.app w2) = Some [readAsDataURL Sample.photo]
     ∧ Part000.isProcessing (Part000.app w2) = false
     ∧ Part000.data (Part000.app w2) = Some Sample.partial
     ∧ Part000.phase (Part000.app w2) ≠ Idle
     ∧ LandingView ∉ Part000.render (Part000.app w2)).
Proof.
  cbv zeta. repeat split; try reflexivity; try discriminate.
  - intros H. apply list_elem_of_singleton in H. discriminate H.
  - intros H. apply list_elem_of_singleton in H. discriminate H.
Qed.

(** C2, as amended.  A request that throws (rejected promise, or text that
    [JSON.parse] refuses) is caught: exactly one [alert] with the error
    message of the awaiting closure's language is appended, [console.error]
    is called once, the captured image(s) are dropped, the processing flag is
    cleared, the stored diagnosis is not written, and only the landing block
    is rendered: the controller is Idle, not Result.  A non-empty text that
    [JSON.parse] accepts is never a failure, whatever the shape of the parsed
    value: no [alert] fires, [console.error] is not called, the captured
    image(s) stay stored, the flag is cleared, and the parsed value is
    written to the diagnosis cell as it is ([index.tsx]: always;
    [part_000]: when it is truthy).  Both revisions. *)
Theorem C2_failed_call_alerts_once_and_returns_to_idle
    (JSON_parse : string → option JsValue) :
  (∀ (w : Index.World) (k : nat) (c : Index.Call) (o : Outcome),
      Index.calls w !! k = Some c → call_throws JSON_parse o →
      let w' := Index.settle JSON_parse k o w in
      Index.alerts w' =
        Index.alerts w ++ [Index.error (Index.translations (Index.call_lang c))]
      ∧ Index.console w' = S (Index.console w)
      ∧ Index.image (Index.app w') = None
      ∧ Index.analyzing (Index.app w') = false
      ∧ Index.data (Index.app w') = Index.data (Index.app w)
      ∧ Index.render (Index.app w') = [LandingView]
      ∧ Index.phase (Index.app w') = Idle
      ∧ Index.calls w' = delete k (Index.calls w))
  ∧
  (∀ (w : Part000.World) (k : nat) (c : Part000.Call) (o : Outcome),
      Part000.calls w !! k = Some c → call_throws JSON_parse o →
      let w' := Part000.settle JSON_parse k o w in
      Part000.alerts w' =
        Part000.alerts w
          ++ [Part000.error (Part000.translations (Part000.call_lang c))]
      ∧ Part000.console w' = S (Part000.console w)
      ∧ Part000.images (Part000.app w') = None
      ∧ Part000.isProcessing (Part000.app w') = false
      ∧ Part000.data (Part000.app w') = Part000.data (Part000.app w)
      ∧ Part000.render (Part000.app w') = [LandingView]
      ∧ Part000.phase (Part000.app w') = Idle
      ∧ Part000.calls w' = delete k (Part000.calls w))
  ∧
  (∀ (w : Index.World) (k : nat) (c : Index.Call) (s : string) (v : JsValue),
      Index.calls w !! k = Some c → s ≠ "" → JSON_parse s = Some v →
      let w' := Index.settle JSON_parse k (Responded (Some s)) w in
      Index.alerts w' = Index.alerts w
      ∧ Index.console w' = Index.console w
      ∧ Index.image (Index.app w') = Index.image (Index.app w)
      ∧ Index.analyzing (Index.app w') = false
      ∧ Index.data (Index.app w') = nullable v
      ∧ Index.calls w' = delete k (Index.calls w))
  ∧
  (∀ (w : Part000.World) (k : nat) (c : Part000.Call) (s : string) (v : JsValue),
      Part000.calls w !! k = Some c → s ≠ "" → JSON_parse s = Some v →
      let w' := Part000.settle JSON_parse k (Responded (Some s)) w in
      Part000.alerts w' = Part000.alerts w
      ∧ Part000.console w' = Part000.console w
      ∧ Part000.images (Part000.app w') = Part000.images (Part000.app w)
      ∧ Part000.isProcessing (Part000.app w') = false
      ∧ Part000.data (Part000.app w')
        = (if truthy v then Some v else Part000.data (Part000.app w))
      ∧ Part000.calls w' = delete k (Part000.calls w)).
Proof.
  split; [|split; [|split]].
  - intros w k c o Hc Ho w'; subst w'.
    rewrite (index_settle_throws JSON_parse w k c o Hc Ho).
    destruct w as [[l an im d] rs cs al co]; cbn.
    unfold Index.phase, Index.render; cbn.
    destruct d; repeat split; reflexivity.
  - intros w k c o Hc Ho w'; subst w'.
    rewrite (part000_settle_throws JSON_parse w k c o Hc Ho).
    destruct w as [[l pr im d] us cs al co]; cbn.
    unfold Part000.phase, Part000.render; cbn.
    destruct d; repeat split; reflexivity.
  - intros w k c s v Hc Hs Hp w'; subst w'.
    rewrite (index_settle_parsed JSON_parse w k c s v Hc Hs Hp).
    destruct w as [[l an im d] rs cs al co]; cbn. repeat split; reflexivity.
  - intros w k c s v Hc Hs Hp w'; subst w'.
    unfold Part000.settle, Part000.startSimulationAndAnalysis_resume,
      Part000.callGemini. rewrite Hc.
    apply truthy_text_nonempty in Hs. rewrite Hs, Hp.
    destruct w as [[l pr im d] us cs al co]; cbn.
    destruct (truthy v); cbn; repeat split; reflexivity.
Qed.

(** Witness of C2: the request of a processing controller is rejected, a
    text that is not JSON arrives, and a text that is JSON but not a
    diagnosis arrives. *)
Lemma C2_witness :
  let w1 := Index.run Sample.lenient_parse Index.boot
              [Index.FilesSelected [Sample.photo]; Index.ReaderLoaded 0] in
  let w2 := Part000.run Sample.lenient_parse Part000.boot
              [Part000.FilesSelected [Sample.photo]; Part000.ReaderLoaded 0 0] in
  (Index.alerts (Index.settle Sample.lenient_parse 0 Rejected w1)
     = [Index.error (Index.translations zh)]
   ∧ Index.phase (Index.app (Index.settle Sample.lenient_parse 0 Rejected w1)) = Idle)
  ∧ (Part000.alerts
       (Part000.settle Sample.lenient_parse 0 (Responded (Some "<html>")) w2)
     = [Part000.error (Part000.translations zh)]
     ∧ Part000.phase
         (Part000.app
            (Part000.settle Sample.lenient_parse 0 (Responded (Some "<html>")) w2))
       = Idle)
  ∧ (Index.alerts
       (Index.settle Sample.lenient_parse 0
          (Responded (Some Sample.partial_text)) w1) = []
     ∧ Index.data
         (Index.app
            (Index.settle Sample.lenient_parse 0
               (Responded (Some Sample.partial_text)) w1))
       = Some Sample.partial)
  ∧ (Part000.alerts
       (Part000.settle Sample.lenient_parse 0
          (Responded (Some Sample.partial_text)) w2) = []
     ∧ Part000.data
         (Part000.app
            (Part000.settle Sample.lenient_parse 0
               (Responded (Some Sample.partial_text)) w2))
       = Some Sample.partial).
Proof.
  intros w1 w2.
  destruct (C2_failed_call_alerts_once_and_returns_to_idle Sample.lenient_parse)
    as (H1 & H2 & H3 & H4).
  split; [|split; [|split]].
  - destruct (H1 w1 0 {| Index.call_image := readAsDataURL Sample.photo;
                         Index.call_lang := zh |} Rejected)
      as (Ha & _ & _ & _ & _ & _ & Hp & _).
    + reflexivity.
    + left. reflexivity.
    + split; [exact Ha | exact Hp].
  - destruct (H2 w2 0 {| Part000.call_images := [readAsDataURL Sample.photo];
                         Part000.call_lang := zh |} (Responded (Some "<html>")))
      as (Ha & _ & _ & _ & _ & _ & Hp & _).
    + reflexivity.
    + right. exists "<html>". split; [reflexivity|]. split; [discriminate|reflexivity].
    + split; [exact Ha | exact Hp].
  - destruct (H3 w1 0 {| Index.call_image := readAsDataURL Sample.photo;
                         Index.call_lang := zh |}
                Sample.partial_text Sample.partial)
      as (Ha & _ & _ & _ & Hd & _).
    + reflexivity.
    + discriminate.
    + reflexivity.
    + split; [exact Ha | exact Hd].
  - destruct (H4 w2 0 {| Part000.call_images := [readAsDataURL Sample.photo];
                         Part000.call_lang := zh |}
                Sample.partial_text Sample.partial)
      as (Ha & _ & _ & _ & Hd & _).
    + reflexivity.
    + discriminate.
    + reflexivity.
    + split; [exact Ha | exact Hd].
Defined.

(** Counterexample to C3 as stated.  Two selections are made while the
    landing block is on the page and both are read; the first request is
    rejected, which clears the image cell, and the second request then
    succeeds with a conforming document.  The document is stored, but the
    controller is Idle, not Result: only the landing block is rendered.
    Both revisions. *)
Lemma C3_counterexample :
  let tr1 := [Index.FilesSelected [Sample.photo];
              Index.FilesSelected [Sample.closeup];
              Index.ReaderLoaded 0; Index.ReaderLoaded 0;
              Index.CallSettled 0 Rejected;
              Index.CallSettled 0 (Responded (Some Sample.healthy_text))] in
  let tr2 := [Part000.FilesSelected [Sample.photo];
              Part000.FilesSelected [Sample.closeup];
              Part000.ReaderLoaded 0 0; Part000.ReaderLoaded 0 0;
              Part000.CallSettled 0 Rejected;
              Part000.CallSettled 0 (Responded (Some Sample.healthy_text))] in
  let w1 := Index.run Sample.mock_parse Index.boot tr1 in
  let w2 := Part000.run Sample.mock_parse Part000.boot tr2 in
  (Sample.mock_parse Sample.healthy_text = Some Sample.healthy
   ∧ conforms plantSchema Sample.healthy = true)
  ∧ (Index.feasible Sample.mock_parse Index.boot tr1 = true
     ∧ Index.data (Index.app w1) = Some Sample.healthy
     ∧ Index.image (Index.app w1) = None
     ∧ Index.phase (Index.app w1) = Idle
     ∧ Index.render (Index.app w1) = [LandingView])
  ∧ (Part000.feasible Sample.mock_parse Part000.boot tr2 = true
     ∧ Part000.data (Part000.app w2) = Some Sample.healthy
     ∧ Part000.images (Part000.app w2) = None
     ∧ Part000.phase (Part000.app w2) = Idle
     ∧ Part000.render (Part000.app w2) = [LandingView]).
Proof. cbv zeta. repeat split; reflexivity. Qed.

(** C3, as amended.  A request that yields a non-empty text which
    [JSON.parse] accepts and whose value conforms to [plantSchema]: the
    stored diagnosis is exactly the parsed value (which has the shape of
    [PlantData]), the flag is cleared, the captured image(s) are untouched
    and no [alert] fires.  The controller is in Result, with the result
    block rendered on the parsed value, when the image cell is set at that
    moment, and Idle, with the diagnosis stored but not shown, when an
    overlapping failed request has cleared it.  The image cell is set, and so
    Result is reached, in every run through the page in which no selection
    is made while a reader or a request is pending; in particular, starting
    from the initial state, a non-empty selection whose readers finish (in
    any order) and whose request succeeds in this way ends in Result with
    the parsed value.  Both revisions. *)
Theorem C3_successful_call_stores_parsed_response
    (JSON_parse : string → option JsValue) :
  (∀ (w : Index.World) (k : nat) (c : Index.Call) (s : string) (v : JsValue),
      Index.calls w !! k = Some c →
      s ≠ "" → JSON_parse s = Some v → conforms plantSchema v = true →
      let w' := Index.settle JSON_parse k (Responded (Some s)) w in
      Index.data (Index.app w') = Some v
      ∧ is_Some (asPlantData v)
      ∧ Index.analyzing (Index.app w') = false
      ∧ Index.image (Index.app w') = Index.image (Index.app w)
      ∧ Index.alerts w' = Index.alerts w
      ∧ (truthy_text (Index.image (Index.app w)) = true →
         Index.phase (Index.app w') = Result
         ∧ Index.render (Index.app w') = [ResultView v])
      ∧ (truthy_text (Index.image (Index.app w)) = false →
         Index.phase (Index.app w') = Idle
         ∧ Index.render (Index.app w') = [LandingView]))
  ∧
  (∀ (w : Part000.World) (k : nat) (c : Part000.Call) (s : string) (v : JsValue),
      Part000.calls w !! k = Some c →
      s ≠ "" → JSON_parse s = Some v → conforms plantSchema v = true →
      let w' := Part000.settle JSON_parse k (Responded (Some s)) w in
      Part000.data (Part000.app w') = Some v
      ∧ is_Some (asPlantData v)
      ∧ Part000.isProcessing (Part000.app w') = false
      ∧ Part000.images (Part000.app w') = Part000.images (Part000.app w)
      ∧ Part000.alerts w' = Part000.alerts w
      ∧ (Part000.truthy_images (Part000.images (Part000.app w)) = true →
         Part000.phase (Part000.app w') = Result
         ∧ Part000.render (Part000.app w') = [ResultView v])
      ∧ (Part000.truthy_images (Part000.images (Part000.app w)) = false →
         Part000.phase (Part000.app w') = Idle
         ∧ Part000.render (Part000.app w') = [LandingView]))
  ∧
  (∀ (tr : list Index.Event) (k : nat) (c : Index.Call) (s : string) (v : JsValue),
      Index.feasible JSON_parse Index.boot tr = true →
      Index.one_at_a_time JSON_parse Index.boot tr = true →
      let w := Index.run JSON_parse Index.boot tr in
      Index.calls w !! k = Some c →
      s ≠ "" → JSON_parse s = Some v → conforms plantSchema v = true →
      let w' := Index.settle JSON_parse k (Responded (Some s)) w in
      Index.phase (Index.app w) = Processing
      ∧ Index.data (Index.app w') = Some v
      ∧ Index.phase (Index.app w') = Result
      ∧ Index.render (Index.app w') = [ResultView v])
  ∧
  (∀ (tr : list Part000.Event) (k : nat) (c : Part000.Call) (s : string) (v : JsValue),
      Part000.feasible JSON_parse Part000.boot tr = true →
      Part000.one_at_a_time JSON_parse Part000.boot tr = true →
      let w := Part000.run JSON_parse Part000.boot tr in
      Part000.calls w !! k = Some c →
      s ≠ "" → JSON_parse s = Some v → conforms plantSchema v = true →
      let w' := Part000.settle JSON_parse k (Responded (Some s)) w in
      Part000.phase (Part000.app w) = Processing
      ∧ Part000.data (Part000.app w') = Some v
      ∧ Part000.phase (Part000.app w') = Result
      ∧ Part000.render (Part000.app w') = [ResultView v])
  ∧
  (∀ (file : File) (rest : list File) (s : string) (v : JsValue),
      s ≠ "" → JSON_parse s = Some v → conforms plantSchema v = true →
      let w' := Index.run JSON_parse Index.boot
                  [Index.FilesSelected (file :: rest); Index.ReaderLoaded 0;
                   Index.CallSettled 0 (Responded (Some s))] in
      Index.data (Index.app w') = Some v
      ∧ Index.render (Index.app w') = [ResultView v]
      ∧ Index.image (Index.app w') = Some (readAsDataURL file))
  ∧
  (∀ (files : list File) (order : list nat) (s : string) (v : JsValue),
      files ≠ [] → order ≡ₚ seq 0 (length files) →
      s ≠ "" → JSON_parse s = Some v → conforms plantSchema v = true →
      let w' := Part000.settle JSON_parse 0 (Responded (Some s))
                  (Part000.readers_finish 0 order
                     (Part000.handleImageUpload files Part000.boot)) in
      Part000.data (Part000.app w') = Some v
      ∧ Part000.render (Part000.app w') = [ResultView v]
      ∧ Part000.images (Part000.app w') = Some (readAsDataURL <$> files)).
Proof.
  split; [|split; [|split; [|split; [|split]]]].
  - intros w k c s v Hc Hs Hp Hv. exact (index_settle_conforming JSON_parse w k c s v Hc Hs Hp Hv).
  - intros w k c s v Hc Hs Hp Hv.
    exact (part000_settle_conforming JSON_parse w k c s v Hc Hs Hp Hv).
  - intros tr k c s v Hf Hseq w Hc Hs Hp Hv w'.
    assert (index_solo_inv w) as [(_ & _ & Hcall) Him].
    { apply index_solo_inv_run; [|exact Hf|exact Hseq].
      split; [apply index_flight_inv_boot|]. intros H. contradiction H. reflexivity. }
    assert (Index.calls w ≠ []) as Hne
      by (intros E; rewrite E in Hc; discriminate Hc).
    specialize (Hcall Hne). specialize (Him Hne).
    destruct (index_settle_conforming JSON_parse w k c s v Hc Hs Hp Hv)
      as (Hd & _ & _ & _ & _ & Hres & _).
    destruct (Hres Him) as [Hph Hr].
    split; [|split; [exact Hd|split; [exact Hph|exact Hr]]].
    rewrite index_phase_cells, Him, Hcall. reflexivity.
  - intros tr k c s v Hf Hseq w Hc Hs Hp Hv w'.
    assert (part000_solo_inv w) as [[_ Hcall] Him].
    { apply part000_solo_inv_run; [|exact Hf|exact Hseq].
      split; [apply part000_flight_inv_boot|]. intros H. contradiction H. reflexivity. }
    assert (Part000.calls w ≠ []) as Hne
      by (intros E; rewrite E in Hc; discriminate Hc).
    specialize (Hcall Hne). specialize (Him Hne).
    destruct (part000_settle_conforming JSON_parse w k c s v Hc Hs Hp Hv)
      as (Hd & _ & _ & _ & _ & Hres & _).
    destruct (Hres Him) as [Hph Hr].
    split; [|split; [exact Hd|split; [exact Hph|exact Hr]]].
    rewrite part000_phase_cells, Him, Hcall. reflexivity.
  - intros file rest s v Hs Hp Hv w'; subst w'.
    destruct (conforms_object_truthy v Hv) as [Htr Hnn].
    unfold Index.run. cbn [foldl Index.step].
    erewrite (index_settle_parsed JSON_parse _ 0 _ s v); [|reflexivity|exact Hs|exact Hp].
    rewrite Hnn. unfold Index.render. cbn. rewrite Htr. cbn.
    repeat split; reflexivity.
  - intros files order s v Hfiles Hperm Hs Hp Hv w'; subst w'.
    destruct (conforms_object_truthy v Hv) as [Htr Hnn].
    destruct (upload_joins Part000.boot files order Hfiles Hperm) as [_ Hjoin].
    cbn [Part000.boot Part000.uploads length] in Hjoin. rewrite Hjoin.
    destruct files as [|f fs]; [contradiction Hfiles; reflexivity|].
    erewrite (part000_settle_parsed JSON_parse _ 0 _ s v);
      [|reflexivity|exact Hs|exact Hp|exact Htr].
    unfold Part000.render. cbn. rewrite Htr. cbn.
    repeat split; reflexivity.
Qed.

(** Witness of C3: the healthy document arrives at a processing controller,
    the sick one at the end of a second diagnosis, and the healthy one after
    an overlapping request has failed. *)
Lemma C3_witness :
  let w1 := Index.run Sample.mock_parse Index.boot
              [Index.FilesSelected [Sample.photo]; Index.ReaderLoaded 0] in
  let tr2 := [Part000.FilesSelected [Sample.photo]; Part000.ReaderLoaded 0 0;
              Part000.CallSettled 0 (Responded (Some Sample.healthy_text));
              Part000.ResetClicked;
              Part000.FilesSelected [Sample.photo; Sample.closeup];
              Part000.ReaderLoaded 0 1; Part000.ReaderLoaded 0 0] in
  let w2 := Part000.run Sample.mock_parse Part000.boot tr2 in
  let w3 := Index.run Sample.mock_parse Index.boot
              [Index.FilesSelected [Sample.photo];
               Index.FilesSelected [Sample.closeup];
               Index.ReaderLoaded 0; Index.ReaderLoaded 0;
               Index.CallSettled 0 Rejected] in
  Index.data (Index.app
     (Index.settle Sample.mock_parse 0 (Responded (Some Sample.healthy_text)) w1))
    = Some Sample.healthy
  ∧ Part000.render (Part000.app
     (Part000.settle Sample.mock_parse 0 (Responded (Some Sample.sick_text)) w2))
    = [ResultView Sample.sick]
  ∧ Index.phase (Index.app
     (Index.settle Sample.mock_parse 0 (Responded (Some Sample.healthy_text)) w3))
    = Idle.
Proof.
  intros w1 tr2 w2 w3.
  destruct (C3_successful_call_stores_parsed_response Sample.mock_parse)
    as (H1 & _ & _ & H4 & _ & _).
  split; [|split].
  - refine (proj1 (H1 w1 0 {| Index.call_image := readAsDataURL Sample.photo;
                              Index.call_lang := zh |}
                     Sample.healthy_text Sample.healthy _ _ _ _));
      [reflexivity | discriminate | reflexivity | reflexivity].
  - refine (proj2 (proj2 (proj2
              (H4 tr2 0 {| Part000.call_images :=
                             [readAsDataURL Sample.photo; readAsDataURL Sample.closeup];
                           Part000.call_lang := zh |}
                  Sample.sick_text Sample.sick _ _ _ _ _ _))));
      [reflexivity | reflexivity | reflexivity | discriminate
      | reflexivity | reflexivity].
  - refine (proj1 (proj2 (proj2 (proj2 (proj2 (proj2 (proj2
              (H1 w3 0 {| Index.call_image := readAsDataURL Sample.closeup;
                          Index.call_lang := zh |}
                  Sample.healthy_text Sample.healthy _ _ _ _)))))) _));
      [reflexivity | discriminate | reflexivity | reflexivity | reflexivity].
Defined.

(** Counterexample to C4 as stated.  A second selection made while the first
    one is still being read (the flag is set in [part_000], the landing block
    is still on the page) is accepted, and two requests end up in flight at
    the same time.  A selection event that reaches the handler in the
    Processing phase is not rejected either. *)
Lemma C4_counterexample :
  (let tr := [Index.FilesSelected [Sample.photo]; Index.FilesSelected [Sample.closeup];
              Index.ReaderLoaded 0; Index.ReaderLoaded 0] in
   Index.feasible Sample.mock_parse Index.boot tr = true
   ∧ length (Index.calls (Index.run Sample.mock_parse Index.boot tr)) = 2%nat)
  ∧ (let tr := [Part000.FilesSelected [Sample.photo]; Part000.FilesSelected [Sample.closeup];
                Part000.ReaderLoaded 0 0; Part000.ReaderLoaded 0 0] in
     Part000.feasible Sample.mock_parse Part000.boot tr = true
     ∧ Part000.isProcessing
         (Part000.app (Part000.handleImageUpload [Sample.photo] Part000.boot)) = true
     ∧ length (Part000.calls (Part000.run Sample.mock_parse Part000.boot tr)) = 2%nat)
  ∧ (let w := Part000.run Sample.mock_parse Part000.boot
                [Part000.FilesSelected [Sample.photo]; Part000.ReaderLoaded 0 0] in
     Part000.phase (Part000.app w) = Processing
     ∧ Part000.handleImageUpload [Sample.closeup] w ≠ w
     ∧ length (Part000.calls
                 (Part000.run Sample.mock_parse w
                    [Part000.FilesSelected [Sample.closeup]; Part000.ReaderLoaded 0 0]))
       = 2%nat).
Proof.
  repeat split; try reflexivity. cbv. discriminate.
Qed.

(** C4, as amended.  No handler looks at the processing flag or at the
    requests in flight.  An empty selection changes nothing; every non-empty
    selection, in whatever state, starts a conversion of its own; every
    conversion that completes sends a request of its own, in addition to
    those already in flight.  Both revisions. *)
Theorem C4_every_selection_starts_its_own_call :
  (∀ (w : Index.World), Index.handleImageUpload [] w = w)
  ∧ (∀ (w : Index.World) (file : File) (rest : list File),
       Index.readers (Index.handleImageUpload (file :: rest) w)
       = Index.readers w
           ++ [{| Index.reader_file := file;
                  Index.reader_lang := Index.lang (Index.app w) |}])
  ∧ (∀ (w : Index.World) (k : nat) (r : Index.Reader),
       Index.readers w !! k = Some r →
       Index.calls (Index.onloadend k w)
       = Index.calls w
           ++ [{| Index.call_image := readAsDataURL (Index.reader_file r);
                  Index.call_lang := Index.reader_lang r |}])
  ∧ (∀ (w : Part000.World), Part000.handleImageUpload [] w = w)
  ∧ (∀ (w : Part000.World) (file : File) (rest : list File),
       Part000.uploads (Part000.handleImageUpload (file :: rest) w)
       = Part000.uploads w
           ++ [{| Part000.upload_files := file :: rest;
                  Part000.upload_values := replicate (S (length rest)) None;
                  Part000.upload_lang := Part000.lang (Part000.app w) |}])
  ∧ (∀ (w : Part000.World) (k i : nat) (u : Part000.Upload) (file : File)
       (base64Images : list string),
       Part000.uploads w !! k = Some u →
       Part000.upload_files u !! i = Some file →
       Part000.upload_values u !! i = Some None →
       Part000.Promise_all
         (<[i := Some (readAsDataURL file)]> (Part000.upload_values u))
       = Some base64Images →
       Part000.calls (Part000.onloadend k i w)
       = Part000.calls w
           ++ [{| Part000.call_images := base64Images;
                  Part000.call_lang := Part000.upload_lang u |}]).
Proof.
  repeat split.
  - intros w k r Hr. unfold Index.onloadend. rewrite Hr. reflexivity.
  - intros w k i u file imgs Hu Hf Hv Hp. unfold Part000.onloadend.
    rewrite Hu, Hf, Hv, Hp. reflexivity.
Qed.

(** Witness of C4 as amended: a second photo is selected and read while the
    request for the first one is in flight. *)
Lemma C4_witness :
  let w1 := Index.run Sample.mock_parse Index.boot
              [Index.FilesSelected [Sample.photo]; Index.ReaderLoaded 0;
               Index.FilesSelected [Sample.closeup]] in
  let w2 := Part000.run Sample.mock_parse Part000.boot
              [Part000.FilesSelected [Sample.photo]; Part000.ReaderLoaded 0 0;
               Part000.FilesSelected [Sample.closeup]] in
  Index.calls (Index.onloadend 0 w1)
    = [{| Index.call_image := readAsDataURL Sample.photo; Index.call_lang := zh |};
       {| Index.call_image := readAsDataURL Sample.closeup; Index.call_lang := zh |}]
  ∧ Part000.calls (Part000.onloadend 0 0 w2)
    = [{| Part000.call_images := [readAsDataURL Sample.photo]; Part000.call_lang := zh |};
       {| Part000.call_images := [readAsDataURL Sample.closeup];
          Part000.call_lang := zh |}].
Proof.
  intros w1 w2.
  destruct (C4_every_selection_starts_its_own_call) as (_ & _ & H1 & _ & _ & H2).
  split.
  - exact (H1 w1 0 {| Index.reader_file := Sample.closeup; Index.reader_lang := zh |}
             eq_refl).
  - exact (H2 w2 0 0
             {| Part000.upload_files := [Sample.closeup];
                Part000.upload_values := [None];
                Part000.upload_lang := zh |}
             Sample.closeup [readAsDataURL Sample.closeup]
             eq_refl eq_refl eq_refl eq_refl).
Defined.




(** C6.  [reset] from the Result phase: the image cell(s) and the diagnosis
    cell are [null], only the landing block is rendered (Idle), and the
    processing flag is still clear.  Both revisions. *)
Theorem C6_reset_from_result_yields_idle :
  (∀ (w : Index.World),
      Index.phase (Index.app w) = Result →
      let w' := Index.reset w in
      Index.phase (Index.app w') = Idle
      ∧ Index.render (Index.app w') = [LandingView]
      ∧ Index.image (Index.app w') = None
      ∧ Index.data (Index.app w') = None
      ∧ Index.analyzing (Index.app w') = false)
  ∧
  (∀ (w : Part000.World),
      Part000.phase (Part000.app w) = Result →
      let w' := Part000.reset w in
      Part000.phase (Part000.app w') = Idle
      ∧ Part000.render (Part000.app w') = [LandingView]
      ∧ Part000.images (Part000.app w') = None
      ∧ Part000.data (Part000.app w') = None
      ∧ Part000.isProcessing (Part000.app w') = false).
Proof.
  split; intros w H w'; subst w'.
  - rewrite index_phase_cells in H.
    destruct w as [[l an im d] rs cs al co]; cbn in *.
    destruct (truthy_text im); [|discriminate H]. cbn in H.
    destruct an; [discriminate H|]. repeat split; reflexivity.
  - rewrite part000_phase_cells in H.
    destruct w as [[l pr im d] us cs al co]; cbn in *.
    destruct (Part000.truthy_images im); [|discriminate H]. cbn in H.
    destruct pr; [discriminate H|]. repeat split; reflexivity.
Qed.

(** Witness of C6: the back button after the diagnosis of the sick rose. *)
Lemma C6_witness :
  let w1 := Index.run Sample.mock_parse Index.boot
              [Index.FilesSelected [Sample.photo]; Index.ReaderLoaded 0;
               Index.CallSettled 0 (Responded (Some Sample.sick_text))] in
  let w2 := Part000.run Sample.mock_parse Part000.boot
              [Part000.FilesSelected [Sample.photo]; Part000.ReaderLoaded 0 0;
               Part000.CallSettled 0 (Responded (Some Sample.sick_text))] in
  (Index.phase (Index.app w1) = Result
   ∧ Index.phase (Index.app (Index.reset w1)) = Idle
   ∧ Index.image (Index.app (Index.reset w1)) = None
   ∧ Index.data (Index.app (Index.reset w1)) = None)
  ∧ (Part000.phase (Part000.app w2) = Result
     ∧ Part000.phase (Part000.app (Part000.reset w2)) = Idle
     ∧ Part000.images (Part000.app (Part000.reset w2)) = None
     ∧ Part000.data (Part000.app (Part000.reset w2)) = None).
Proof.
  intros w1 w2.
  destruct C6_reset_from_result_yields_idle as [H1 H2].
  split.
  - destruct (H1 w1 eq_refl) as (Hp & _ & Hi & Hd & _).
    split; [reflexivity|]. split; [exact Hp|]. split; [exact Hi | exact Hd].
  - destruct (H2 w2 eq_refl) as (Hp & _ & Hi & Hd & _).
    split; [reflexivity|]. split; [exact Hp|]. split; [exact Hi | exact Hd].
Defined.

(** C7.  The language button, in any state: the language is the other one,
    and the processing flag, the image cell(s), the diagnosis cell, the
    rendered blocks, the pending work and the alert log are as before.
    Both revisions. *)
Theorem C7_toggle_language_changes_only_language :
  (∀ (w : Index.World),
      let w' := Index.toggleLanguage w in
      Index.lang (Index.app w') ≠ Index.lang (Index.app w)
      ∧ Index.lang (Index.app (Index.toggleLanguage w')) = Index.lang (Index.app w)
      ∧ Index.analyzing (Index.app w') = Index.analyzing (Index.app w)
      ∧ Index.image (Index.app w') = Index.image (Index.app w)
      ∧ Index.data (Index.app w') = Index.data (Index.app w)
      ∧ Index.render (Index.app w') = Index.render (Index.app w)
      ∧ Index.phase (Index.app w') = Index.phase (Index.app w)
      ∧ Index.readers w' = Index.readers w
      ∧ Index.calls w' = Index.calls w
      ∧ Index.alerts w' = Index.alerts w)
  ∧
  (∀ (w : Part000.World),
      let w' := Part000.toggleLanguage w in
      Part000.lang (Part000.app w') ≠ Part000.lang (Part000.app w)
      ∧ Part000.lang (Part000.app (Part000.toggleLanguage w'))
        = Part000.lang (Part000.app w)
      ∧ Part000.isProcessing (Part000.app w') = Part000.isProcessing (Part000.app w)
      ∧ Part000.images (Part000.app w') = Part000.images (Part000.app w)
      ∧ Part000.data (Part000.app w') = Part000.data (Part000.app w)
      ∧ Part000.render (Part000.app w') = Part000.render (Part000.app w)
      ∧ Part000.phase (Part000.app w') = Part000.phase (Part000.app w)
      ∧ Part000.uploads w' = Part000.uploads w
      ∧ Part000.calls w' = Part000.calls w
      ∧ Part000.alerts w' = Part000.alerts w).
Proof.
  split; intros w w'; subst w';
    destruct w as [[[] ? ? ?] ? ? ? ?]; cbn;
    repeat split; try reflexivity; discriminate.
Qed.

(** C8.  A non-empty selection [files] is submitted in any state, and its
    readers finish in any order (a permutation [order] of the indices).  The
    array handed to [setImages] and to the request is the list of the files'
    data URLs in the order of the files: same length, entry [i] is the
    conversion of file [i].  The request is sent by the last reader to
    finish: after any proper part of [order] no request has been added. *)
Theorem C8_joined_buffers_follow_file_order
    (w : Part000.World) (files : list File) (order : list nat) :
  files ≠ [] → order ≡ₚ seq 0 (length files) →
  let k := length (Part000.uploads w) in
  let w' := Part000.readers_finish k order (Part000.handleImageUpload files w) in
  let base64Images := readAsDataURL <$> files in
  Part000.images (Part000.app w') = Some base64Images
  ∧ Part000.calls w'
    = Part000.calls w ++ [{| Part000.call_images := base64Images;
                             Part000.call_lang := Part000.lang (Part000.app w) |}]
  ∧ length base64Images = length files
  ∧ (∀ i, base64Images !! i = readAsDataURL <$> files !! i)
  ∧ Part000.uploads w' = Part000.uploads w
  ∧ (∀ before after, order = before ++ after → after ≠ [] →
       Part000.calls (Part000.readers_finish k before (Part000.handleImageUpload files w))
       = Part000.calls w).
Proof.
  intros Hfiles Hperm k w' imgs.
  destruct (upload_joins w files order Hfiles Hperm) as [Hup Hjoin].
  subst w' k. rewrite Hjoin.
  assert (NoDup order) as Hnd by (rewrite Hperm; apply NoDup_seq).
  assert (∀ j, j ∈ order → (j < length files)%nat) as Hin.
  { intros j. rewrite Hperm, elem_of_seq. lia. }
  destruct files as [|f fs]; [contradiction Hfiles; reflexivity|].
  split; [reflexivity|]. split; [reflexivity|].
  split; [apply length_fmap|]. split; [intros i; apply list_lookup_fmap|].
  split; [reflexivity|].
  intros before after -> Hafter.
  rewrite (readers_finish_waits (Part000.uploads w) (f :: fs)
             (Part000.lang (Part000.app w)) before after _ Hafter Hnd Hin Hup).
  reflexivity.
Qed.

(** Witness of C8: three photos whose readers finish in the order 2, 0, 1. *)
Lemma C8_witness :
  let files := [Sample.photo; Sample.closeup; Sample.photo] in
  let w' := Part000.readers_finish 0 [2; 0; 1]
              (Part000.handleImageUpload files Part000.boot) in
  files ≠ [] ∧ [2; 0; 1] ≡ₚ seq 0 (length files)
  ∧ Part000.images (Part000.app w')
    = Some [readAsDataURL Sample.photo; readAsDataURL Sample.closeup;
            readAsDataURL Sample.photo].
Proof.
  intros files w'.
  assert (files ≠ []) as Hne by discriminate.
  assert ([2; 0; 1] ≡ₚ seq 0 (length files)) as Hperm.
  { cbn. apply Permutation_cons_app with (l1 := [0; 1]) (l2 := []). reflexivity. }
  split; [exact Hne|]. split; [exact Hperm|].
  exact (proj1 (C8_joined_buffers_follow_file_order Part000.boot files [2; 0; 1] Hne Hperm)).
Defined.

(** C9.  In the Result phase, with a stored diagnosis [d] that has the shape
    of [PlantData], the one block rendered is the result block for [d], and
    its right column contains the treatment panel if and only if
    [treatmentIngredients] is not empty; with an empty list no treatment
    panel of any content is there.  Both revisions. *)
Theorem C9_treatment_panel_iff_ingredients_nonempty :
  (∀ (a : Index.App) (d : JsValue) (pd : PlantData),
      Index.phase a = Result → Index.data a = Some d → asPlantData d = Some pd →
      Index.render a = [ResultView d]
      ∧ (Treatment (treatmentIngredients pd) ∈ result_panels pd
         ↔ treatmentIngredients pd ≠ [])
      ∧ ((∃ l, Treatment l ∈ result_panels pd) ↔ treatmentIngredients pd ≠ []))
  ∧
  (∀ (a : Part000.App) (d : JsValue) (pd : PlantData),
      Part000.phase a = Result → Part000.data a = Some d → asPlantData d = Some pd →
      Part000.render a = [ResultView d]
      ∧ (Treatment (treatmentIngredients pd) ∈ result_panels pd
         ↔ treatmentIngredients pd ≠ [])
      ∧ ((∃ l, Treatment l ∈ result_panels pd) ↔ treatmentIngredients pd ≠ [])).
Proof.
  split; intros a d pd Hph Hd _; (split; [|apply result_panels_treatment]).
  - apply index_render_result; assumption.
  - apply part000_render_result; assumption.
Qed.

(** Witness of C9: the diagnosis of the sick rose shows the treatment panel,
    that of the healthy monstera does not. *)
Lemma C9_witness :
  let a1 := Index.app (Index.run Sample.mock_parse Index.boot
              [Index.FilesSelected [Sample.photo]; Index.ReaderLoaded 0;
               Index.CallSettled 0 (Responded (Some Sample.sick_text))]) in
  let a2 := Part000.app (Part000.run Sample.mock_parse Part000.boot
              [Part000.FilesSelected [Sample.photo]; Part000.ReaderLoaded 0 0;
               Part000.CallSettled 0 (Responded (Some Sample.healthy_text))]) in
  (Index.render a1 = [ResultView Sample.sick]
   ∧ Treatment ["Mancozeb"; "Carbendazim"] ∈ result_panels Sample.sick_data)
  ∧ (Part000.render a2 = [ResultView Sample.healthy]
     ∧ ¬ ∃ l, Treatment l ∈ result_panels Sample.healthy_data).
Proof.
  intros a1 a2.
  destruct C9_treatment_panel_iff_ingredients_nonempty as [H1 H2].
  split.
  - destruct (H1 a1 Sample.sick Sample.sick_data eq_refl eq_refl eq_refl)
      as (Hr & Ht & _).
    split; [exact Hr|]. apply Ht. discriminate.
  - destruct (H2 a2 Sample.healthy Sample.healthy_data eq_refl eq_refl eq_refl)
      as (Hr & _ & Ht).
    split; [exact Hr|]. intros Hex. apply Ht in Hex. apply Hex. reflexivity.
Defined.

(** Counterexample to C10 as stated.  Two selections are made while the
    landing block is on the page.  [part_000]: the first diagnosis arrives
    and then the second upload is joined: the controller is in Processing
    with the first diagnosis still stored; if the second response then
    carries no text, the first diagnosis is rendered with the second photo.
    [index.tsx]: both photos are read and the first diagnosis arrives: it is
    rendered, next to the second photo, while the second request is still in
    flight. *)
Lemma C10_counterexample :
  let tr := [Part000.FilesSelected [Sample.photo];
             Part000.FilesSelected [Sample.closeup];
             Part000.ReaderLoaded 0 0;
             Part000.CallSettled 0 (Responded (Some Sample.healthy_text));
             Part000.ReaderLoaded 0 0] in
  let w := Part000.run Sample.mock_parse Part000.boot tr in
  let w' := Part000.settle Sample.mock_parse 0 (Responded None) w in
  let tr1 := [Index.FilesSelected [Sample.photo];
              Index.FilesSelected [Sample.closeup];
              Index.ReaderLoaded 0; Index.ReaderLoaded 0;
              Index.CallSettled 0 (Responded (Some Sample.healthy_text))] in
  let w1 := Index.run Sample.mock_parse Index.boot tr1 in
  (Part000.feasible Sample.mock_parse Part000.boot tr = true
   ∧ Part000.phase (Part000.app w) = Processing
   ∧ Part000.isProcessing (Part000.app w) = true
   ∧ Part000.data (Part000.app w) = Some Sample.healthy
   ∧ Part000.calls w
     = [{| Part000.call_images := [readAsDataURL Sample.closeup];
           Part000.call_lang := zh |}]
   ∧ Part000.render (Part000.app w') = [ResultView Sample.healthy]
   ∧ Part000.images (Part000.app w') = Some [readAsDataURL Sample.closeup])
  ∧ (Index.feasible Sample.mock_parse Index.boot tr1 = true
     ∧ Index.calls w1
       = [{| Index.call_image := readAsDataURL Sample.closeup;
             Index.call_lang := zh |}]
     ∧ Index.image (Index.app w1) = Some (readAsDataURL Sample.closeup)
     ∧ Index.data (Index.app w1) = Some Sample.healthy
     ∧ Index.render (Index.app w1) = [ResultView Sample.healthy]).
Proof. cbv zeta. repeat split; reflexivity. Qed.

(** C10, as amended.  In [index.tsx] the diagnosis cell is [null] whenever
    the controller is in Processing, in every run.  In [part_000] the
    diagnosis cell is [null] whenever the controller is in Processing, in
    every run in which a selection is only made while no reader and no
    request is pending.  In those runs, in both revisions, the diagnosis
    cell is [null] and no result block is rendered while a request is in
    flight (in [part_000] also while an upload is being read).  With
    overlapping selections a diagnosis can be rendered while another request
    is in flight, in both revisions, and [part_000] can be in Processing
    with a diagnosis stored. *)
Theorem C10_no_result_while_processing
    (JSON_parse : string → option JsValue) :
  (∀ (tr : list Index.Event),
      let w := Index.run JSON_parse Index.boot tr in
      (Index.analyzing (Index.app w) = true → Index.data (Index.app w) = None)
      ∧ (Index.phase (Index.app w) = Processing → Index.data (Index.app w) = None))
  ∧ (∀ (tr : list Index.Event),
       Index.one_at_a_time JSON_parse Index.boot tr = true →
       let w := Index.run JSON_parse Index.boot tr in
       Index.calls w ≠ [] →
       Index.analyzing (Index.app w) = true
       ∧ Index.data (Index.app w) = None
       ∧ ∀ d, ResultView d ∉ Index.render (Index.app w))
  ∧ (∀ (tr : list Part000.Event),
       Part000.one_at_a_time JSON_parse Part000.boot tr = true →
       let w := Part000.run JSON_parse Part000.boot tr in
       (Part000.isProcessing (Part000.app w) = true
        → Part000.data (Part000.app w) = None)
       ∧ (Part000.phase (Part000.app w) = Processing
          → Part000.data (Part000.app w) = None)
       ∧ (Part000.uploads w ≠ [] ∨ Part000.calls w ≠ [] →
          Part000.data (Part000.app w) = None
          ∧ ∀ d, ResultView d ∉ Part000.render (Part000.app w))).
Proof.
  split; [|split].
  - intros tr w.
    assert (index_inv w) as Hw by (apply index_inv_run; discriminate).
    split; [exact Hw|]. intros Hph. apply Hw.
    rewrite index_phase_cells in Hph.
    destruct (negb _); [discriminate Hph|].
    destruct (Index.analyzing (Index.app w)); [reflexivity|].
    destruct (truthy_data _); discriminate Hph.
  - intros tr Hseq w Hne.
    assert (index_flight_inv w) as (Hflag & _ & Hcall)
      by (apply index_flight_inv_run; [apply index_flight_inv_boot|exact Hseq]).
    specialize (Hcall Hne). specialize (Hflag Hcall).
    split; [exact Hcall|]. split; [exact Hflag|].
    intros d. apply index_no_result_without_data, Hflag.
  - intros tr Hseq w.
    assert (part000_flight_inv w) as ((Hflag & Hup & _) & Hcall)
      by (apply part000_flight_inv_run; [apply part000_flight_inv_boot|exact Hseq]).
    split; [exact Hflag|]. split.
    + intros Hph. apply Hflag.
      rewrite part000_phase_cells in Hph.
      destruct (negb _); [discriminate Hph|].
      destruct (Part000.isProcessing (Part000.app w)); [reflexivity|].
      destruct (truthy_data _); discriminate Hph.
    + intros Hpend.
      assert (Part000.data (Part000.app w) = None) as Hd
        by (destruct Hpend as [Hu|Hc]; [apply Hup, Hu | apply Hflag, Hcall, Hc]).
      split; [exact Hd|]. intros d. apply part000_no_result_without_data, Hd.
Qed.

(** Witness of C10 as amended: a second diagnosis is under way, one
    selection at a time. *)
Lemma C10_witness :
  let tr1 := [Index.FilesSelected [Sample.photo]; Index.ReaderLoaded 0;
              Index.CallSettled 0 (Responded (Some Sample.healthy_text));
              Index.ResetClicked;
              Index.FilesSelected [Sample.closeup]; Index.ReaderLoaded 0] in
  let tr2 := [Part000.FilesSelected [Sample.photo]; Part000.ReaderLoaded 0 0;
              Part000.CallSettled 0 (Responded (Some Sample.healthy_text));
              Part000.ResetClicked;
              Part000.FilesSelected [Sample.closeup]; Part000.ReaderLoaded 0 0] in
  (Index.one_at_a_time Sample.mock_parse Index.boot tr1 = true
   ∧ Index.calls (Index.run Sample.mock_parse Index.boot tr1) ≠ []
   ∧ Index.data (Index.app (Index.run Sample.mock_parse Index.boot tr1)) = None
   ∧ ResultView Sample.healthy
     ∉ Index.render (Index.app (Index.run Sample.mock_parse Index.boot tr1)))
  ∧ (Part000.one_at_a_time Sample.mock_parse Part000.boot tr2 = true
     ∧ Part000.isProcessing
         (Part000.app (Part000.run Sample.mock_parse Part000.boot tr2)) = true
     ∧ Part000.data
         (Part000.app (Part000.run Sample.mock_parse Part000.boot tr2)) = None).
Proof.
  intros tr1 tr2.
  destruct (C10_no_result_while_processing Sample.mock_parse) as (_ & H2 & H3).
  split.
  - split; [reflexivity|]. split; [discriminate|].
    destruct (H2 tr1 eq_refl ltac:(discriminate)) as (_ & Hd & Hr).
    split; [exact Hd | exact (Hr Sample.healthy)].
  - split; [reflexivity|]. split; [reflexivity|].
    exact (proj1 (H3 tr2 eq_refl) eq_refl).
Defined.

(** * Further properties *)

(** ** The request parts read back from a data URL *)

Lemma split_nonempty (sep : ascii) (s : string) : split sep s ≠ [].
Proof.
  destruct s as [|c s]; cbn; [discriminate|].
  destruct (Ascii.eqb c sep); [discriminate|].
  destruct (split sep s); discriminate.
Qed.

Lemma split_plain (sep : ascii) (s : string) :
  has_char sep s = false → split sep s = [s].
Proof.
  induction s as [|c s IH]; cbn; [reflexivity|].
  intros H. apply orb_false_iff in H as [Hc Hs].
  rewrite Hc, (IH Hs). reflexivity.
Qed.

(** Splitting a concatenation whose first part has no separator: the first
    part is glued to the first piece of the rest. *)
Lemma split_append_plain (sep : ascii) (a r : string) :
  has_char sep a = false →
  split sep (a +:+ r) =
    match split sep r with
    | [] => [a]
    | piece :: pieces => (a +:+ piece) :: pieces
    end.
Proof.
  induction a as [|c a IH]; cbn.
  - intros _. change ("" +:+ r) with r.
    destruct (split sep r) eqn:E; [|reflexivity].
    contradiction (split_nonempty sep r E).
  - intros H. apply orb_false_iff in H as [Hc Ha].
    change (String c a +:+ r) with (String c (a +:+ r)). cbn [split].
    rewrite Hc, (IH Ha). destruct (split sep r); reflexivity.
Qed.

Lemma split_second_piece (sep : ascii) (s : string) :
  split sep s !! 1%nat = None ↔ has_char sep s = false.
Proof.
  induction s as [|c s IH]; cbn; [split; reflexivity|].
  destruct (Ascii.eqb c sep); cbn.
  - destruct (split sep s) eqn:E; [contradiction (split_nonempty sep s E)|].
    cbn. split; discriminate.
  - destruct (split sep s) as [|p ps]; cbn in *; exact IH.
Qed.

Lemma append_empty_r (s : string) : s +:+ "" = s.
Proof.
  induction s as [|c s IH]; [reflexivity|].
  change (String c s +:+ "") with (String c (s +:+ "")). f_equal. exact IH.
Qed.

Lemma split_at_separator (sep : ascii) (r : string) :
  split sep (String sep r) = "" :: split sep r.
Proof. cbn [split]. rewrite Ascii.eqb_refl. reflexivity. Qed.

Lemma media_type_plain (f : File) :
  plain_file f = true →
  has_char "," (media_type f) = false
  ∧ has_char ";" (media_type f) = false
  ∧ has_char ":" (media_type f) = false
  ∧ has_char "," (file_base64 f) = false.
Proof.
  unfold plain_file, media_type.
  rewrite !andb_true_iff, !negb_true_iff. intros [[[Hc Hs] Hk] Hb].
  destruct (file_type f =? ""); repeat split; try assumption; reflexivity.
Qed.

Lemma data_url_pieces (f : File) :
  plain_file f = true →
  mimeType (readAsDataURL f) = Some (media_type f)
  ∧ base64Data (readAsDataURL f) = Some (file_base64 f).
Proof.
  intros Hplain. destruct (media_type_plain f Hplain) as (Hc & Hs & Hk & Hb).
  unfold mimeType, base64Data, readAsDataURL.
  generalize dependent (media_type f). intros t Hc Hs Hk.
  generalize dependent (file_base64 f). intros b Hb.
  split.
  - rewrite (split_append_plain ";" "data:" _ eq_refl).
    rewrite (split_append_plain ";" t _ Hs).
    change (";base64," +:+ b) with (String ";" ("base64," +:+ b)).
    rewrite split_at_separator. cbn [lookup list_lookup mbind option_bind].
    rewrite append_empty_r.
    change ("data:" +:+ t) with ("data" +:+ String ":" t).
    rewrite (split_append_plain ":" "data" _ eq_refl), split_at_separator.
    rewrite (split_plain ":" t Hk). reflexivity.
  - rewrite (split_append_plain "," "data:" _ eq_refl).
    rewrite (split_append_plain "," t _ Hc).
    change (";base64," +:+ b) with (";base64" +:+ String "," b).
    rewrite (split_append_plain "," ";base64" _ eq_refl), split_at_separator.
    rewrite (split_plain "," b Hb). reflexivity.
Qed.

(** X1.  The two pieces that the request builder cuts out of an image string,
    on the data URL of a plain file, are the media type the URL was written
    with and the file's base64 text: the media type is the file's own type
    when it has one and [application/octet-stream] when it has none.  For
    any image string at all, [data] is [undefined] exactly when the string
    holds no comma. *)
Theorem X1_data_url_round_trip :
  (∀ f : File, plain_file f = true →
     mimeType (readAsDataURL f) = Some (media_type f)
     ∧ base64Data (readAsDataURL f) = Some (file_base64 f))
  ∧ (∀ f : File, plain_file f = true → file_type f ≠ "" →
       mimeType (readAsDataURL f) = Some (file_type f))
  ∧ (∀ f : File, plain_file f = true → file_type f = "" →
       mimeType (readAsDataURL f) = Some "application/octet-stream")
  ∧ (∀ img : string, base64Data img = None ↔ has_char ","%char img = false).
Proof.
  split; [exact data_url_pieces|]. split; [|split].
  - intros f Hplain Hne. rewrite (proj1 (data_url_pieces f Hplain)).
    unfold media_type. apply String.eqb_neq in Hne. rewrite Hne. reflexivity.
  - intros f Hplain He. rewrite (proj1 (data_url_pieces f Hplain)).
    unfold media_type. rewrite He. reflexivity.
  - intros img. apply split_second_piece.
Qed.

Lemma X1_witness :
  plain_file Sample.photo = true
  ∧ mimeType (readAsDataURL Sample.photo) = Some "image/jpeg"
  ∧ base64Data (readAsDataURL Sample.photo) = Some "/9j/4AAQSkZJRgABAQ=="
  ∧ mimeType (readAsDataURL {| file_type := ""; file_base64 := "AAEC" |})
    = Some "application/octet-stream"
  ∧ base64Data "not a data url" = None.
Proof.
  destruct X1_data_url_round_trip as (H1 & H2 & H3 & H4).
  split; [reflexivity|].
  split; [exact (H2 Sample.photo eq_refl ltac:(discriminate))|].
  split; [exact (proj2 (H1 Sample.photo eq_refl))|].
  split; [exact (H3 {| file_type := ""; file_base64 := "AAEC" |} eq_refl eq_refl)|].
  apply H4. reflexivity.
Defined.

Lemma imageParts_data_urls (files : list File) :
  forallb plain_file files = true →
  imageParts (readAsDataURL <$> files)
  = (fun f => {| inline_mimeType := Some (media_type f);
                 inline_data := Some (file_base64 f) |}) <$> files.
Proof.
  unfold imageParts. induction files as [|f fs IH]; intros Hplain; [reflexivity|].
  cbn [forallb] in Hplain. apply andb_true_iff in Hplain as [Hf Hfs].
  cbn [fmap list_fmap map]. unfold inlineData at 1.
  destruct (data_url_pieces f Hf) as [-> ->]. f_equal. apply IH, Hfs.
Qed.

(** X2.  [part_000]: a non-empty selection of plain files is submitted in any
    state and its readers finish in any order.  The request that is sent
    carries one inline part per file, in the order of the files, each with
    the media type of that file's data URL (the file's type, or
    [application/octet-stream] for a file without one) and that file's
    base64 text. *)
Theorem X2_image_parts_follow_files
    (w : Part000.World) (files : list File) (order : list nat) :
  files ≠ [] → order ≡ₚ seq 0 (length files) → forallb plain_file files = true →
  let w' := Part000.readers_finish (length (Part000.uploads w)) order
              (Part000.handleImageUpload files w) in
  ∃ c, Part000.calls w' = Part000.calls w ++ [c]
       ∧ imageParts (Part000.call_images c)
         = (fun f => {| inline_mimeType := Some (media_type f);
                        inline_data := Some (file_base64 f) |}) <$> files.
Proof.
  intros Hfiles Hperm Hplain w'. subst w'.
  destruct (upload_joins w files order Hfiles Hperm) as [_ ->].
  pose proof (imageParts_data_urls files Hplain) as Hparts.
  destruct files as [|f fs]; [contradiction Hfiles; reflexivity|].
  eexists. split; [reflexivity|]. exact Hparts.
Qed.

Lemma X2_witness :
  ∃ c, Part000.calls
         (Part000.readers_finish 0 [1; 0]%nat
            (Part000.handleImageUpload
               [Sample.photo; {| file_type := ""; file_base64 := "AAEC" |}]
               Part000.boot))
       = [c]
       ∧ imageParts (Part000.call_images c)
         = [ {| inline_mimeType := Some "image/jpeg";
                inline_data := Some "/9j/4AAQSkZJRgABAQ==" |};
             {| inline_mimeType := Some "application/octet-stream";
                inline_data := Some "AAEC" |} ].
Proof.
  refine (X2_image_parts_follow_files Part000.boot
            [Sample.photo; {| file_type := ""; file_base64 := "AAEC" |}]
            [1; 0]%nat _ _ eq_refl).
  - discriminate.
  - apply perm_swap.
Defined.

(** ** The schema and the interface describe the same values *)

Lemma asStrings_conforms (l : list JsValue) (ss : list string) :
  mapM asString l = Some ss → forallb (conforms (STRING None)) l = true.
Proof.
  revert ss. induction l as [|v l IH]; intros ss H; [reflexivity|].
  cbn in H. destruct (asString v) as [s|] eqn:Ev; [|discriminate H].
  cbn in H. destruct (mapM asString l) as [ss'|] eqn:El; [|discriminate H].
  cbn [forallb]. rewrite (IH ss' eq_refl), andb_true_r.
  destruct v; try discriminate Ev. reflexivity.
Qed.

Lemma conforms_object_intro properties required ps :
  (∀ r, In r required → is_Some (prop r ps)) →
  (∀ k sch fv, In (k, sch) properties → prop k ps = Some fv → conforms sch fv = true) →
  conforms (OBJECT properties required) (JObj ps) = true.
Proof.
  intros Hreq Hprops. cbn [conforms]. apply andb_true_iff. split.
  - apply forallb_forall. intros r Hr. destruct (Hreq r Hr) as [v ->]. reflexivity.
  - apply forallb_forall. intros [k sch] Hk.
    destruct (prop k ps) as [fv|] eqn:E; [|reflexivity].
    exact (Hprops k sch fv Hk E).
Qed.

Lemma asString_conforms (v : JsValue) (s : string) :
  asString v = Some s → conforms (STRING None) v = true.
Proof. destruct v; try discriminate. reflexivity. Qed.

Lemma asStringList_conforms (v : JsValue) (ss : list string) :
  asStrings v = Some ss → conforms (ARRAY (STRING None)) v = true.
Proof. destruct v; try discriminate. cbn. apply asStrings_conforms. Qed.

Lemma asHealthStatus_conforms (v : JsValue) (h : HealthStatus) :
  asHealthStatus v = Some h →
  conforms (STRING (Some ["Healthy"; "Needs Attention"; "Sick"; "Unknown"])) v = true.
Proof.
  destruct v; try discriminate. cbn [asHealthStatus conforms existsb].
  destruct (s =? "Healthy"); [reflexivity|].
  destruct (s =? "Needs Attention"); [reflexivity|].
  destruct (s =? "Sick"); [reflexivity|].
  destruct (s =? "Unknown"); [reflexivity|discriminate].
Qed.

Lemma asLevel_conforms (v : JsValue) (l : Level) :
  asLevel v = Some l →
  conforms (STRING (Some ["Low"; "Medium"; "High"])) v = true.
Proof.
  destruct v; try discriminate. cbn [asLevel conforms existsb].
  destruct (s =? "Low"); [reflexivity|].
  destruct (s =? "Medium"); [reflexivity|].
  destruct (s =? "High"); [reflexivity|discriminate].
Qed.

(** One [x ← prop k ps ≫= f; ...] of a decoder that succeeded. *)
Lemma bind_field {A B : Type} (k : string) (ps : list (string * JsValue))
    (f : JsValue → option A) (g : A → option B) (b : B) :
  (prop k ps ≫= f) ≫= g = Some b →
  ∃ fv a, prop k ps = Some fv ∧ f fv = Some a ∧ g a = Some b.
Proof.
  destruct (prop k ps) as [fv|]; [|discriminate]. cbn.
  destruct (f fv) as [a|] eqn:E; [|discriminate]. cbn. eauto.
Qed.

Lemma asCareGuide_conforms (v : JsValue) (c : CareGuide) :
  asCareGuide v = Some c →
  conforms (OBJECT
         [ ("light", STRING None);
           ("water", STRING None);
           ("soil", STRING None);
           ("temp", STRING None) ]
         ["light"; "water"; "soil"; "temp"]) v = true.
Proof.
  destruct v as [| | | |?|ps]; try discriminate. unfold asCareGuide. intros H.
  apply bind_field in H as (v1 & a1 & E1 & F1 & H).
  apply bind_field in H as (v2 & a2 & E2 & F2 & H).
  apply bind_field in H as (v3 & a3 & E3 & F3 & H).
  apply bind_field in H as (v4 & a4 & E4 & F4 & H).
  apply conforms_object_intro.
  - intros r Hin. cbn [In] in Hin.
    destruct Hin as [<-|[<-|[<-|[<-|[]]]]]; eauto.
  - intros k sch fv Hin Hp. cbn [In] in Hin.
    destruct Hin as [Heq|[Heq|[Heq|[Heq|[]]]]]; injection Heq as <- <-;
      rewrite Hp in *; simplify_eq; eauto using asString_conforms.
Qed.

Lemma asPlantData_conforms (v : JsValue) (pd : PlantData) :
  asPlantData v = Some pd → conforms plantSchema v = true.
Proof.
  destruct v as [| | | |?|ps]; try discriminate. unfold asPlantData. intros H.
  apply bind_field in H as (v1 & a1 & E1 & F1 & H).
  apply bind_field in H as (v2 & a2 & E2 & F2 & H).
  apply bind_field in H as (v3 & a3 & E3 & F3 & H).
  apply bind_field in H as (v4 & a4 & E4 & F4 & H).
  apply bind_field in H as (v5 & a5 & E5 & F5 & H).
  apply bind_field in H as (v6 & a6 & E6 & F6 & H).
  apply bind_field in H as (v7 & a7 & E7 & F7 & H).
  apply bind_field in H as (v8 & a8 & E8 & F8 & H).
  apply bind_field in H as (v9 & a9 & E9 & F9 & H).
  apply bind_field in H as (v10 & a10 & E10 & F10 & H).
  apply bind_field in H as (v11 & a11 & E11 & F11 & H).
  unfold plantSchema. apply conforms_object_intro.
  - intros r Hin. cbn [In] in Hin.
    repeat (destruct Hin as [<-|Hin]; [eauto|]). contradiction.
  - intros k sch fv Hin Hp. cbn [In] in Hin.
    repeat (destruct Hin as [Heq|Hin];
            [injection Heq as <- <-; rewrite Hp in *; simplify_eq;
             eauto using asString_conforms, asStringList_conforms,
               asHealthStatus_conforms, asLevel_conforms, asCareGuide_conforms|]).
    contradiction.
Qed.

(** X3.  A parsed value conforms to [plantSchema] exactly when it has the
    shape of the interface [PlantData]: the schema sent to the service and
    the type the response is cast to describe the same documents. *)
Theorem X3_schema_and_interface_agree (v : JsValue) :
  conforms plantSchema v = true ↔ is_Some (asPlantData v).
Proof.
  split; [apply conforms_asPlantData|]. intros [pd H]. exact (asPlantData_conforms v pd H).
Qed.

Lemma X3_witness :
  conforms plantSchema Sample.sick = true
  ∧ conforms plantSchema (JObj [("name", JStr "Rose")]) = false
  ∧ asPlantData (JObj [("name", JStr "Rose")]) = None.
Proof.
  split; [exact (proj2 (X3_schema_and_interface_agree Sample.sick)
                   (ex_intro _ Sample.sick_data eq_refl))|].
  split; reflexivity.
Defined.

(** ** Labels of a conforming diagnosis *)

Lemma enum_member (s : string) (allowed : list string) :
  existsb (String.eqb s) allowed = true → In s allowed.
Proof.
  intros H. apply existsb_exists in H as (x & Hin & Heq).
  apply String.eqb_eq in Heq. subst x. exact Hin.
Qed.

Lemma conforms_enum_string (v : JsValue) (allowed : list string) :
  conforms (STRING (Some allowed)) v = true → ∃ s, v = JStr s ∧ In s allowed.
Proof.
  destruct v; try discriminate. cbn [conforms]. intros H.
  eexists. split; [reflexivity|]. apply enum_member, H.
Qed.

(** X4.  For every response that conforms to [plantSchema], in both
    languages: [HealthBar] finds a label for the health status and for the
    risk level, the urgency card finds its label, and the bar is drawn at
    full width exactly when the status is [Healthy]. *)
Theorem X4_conforming_diagnosis_has_labels
    (ps : list (string * JsValue)) (lang : Lang) :
  conforms plantSchema (JObj ps) = true →
  ∃ status risk urgency,
    prop "healthStatus" ps = Some (JStr status)
    ∧ prop "riskLevel" ps = Some (JStr risk)
    ∧ prop "urgency" ps = Some (JStr urgency)
    ∧ is_Some (bar_label (HealthBar status risk lang))
    ∧ is_Some (bar_badge (HealthBar status risk lang))
    ∧ is_Some (Translations.entry urgency
                 (Translations.urgency (Translations.tables lang)))
    ∧ (bar_width (HealthBar status risk lang) = "100%" ↔ status = "Healthy").
Proof.
  intros H.
  destruct (conforms_field _ _ _ "healthStatus"
              (STRING (Some ["Healthy"; "Needs Attention"; "Sick"; "Unknown"])) H)
    as (v1 & E1 & H1); [cbn [In]; tauto | cbn [In]; tauto |].
  destruct (conforms_field _ _ _ "riskLevel"
              (STRING (Some ["Low"; "Medium"; "High"])) H)
    as (v2 & E2 & H2); [cbn [In]; tauto | cbn [In]; tauto |].
  destruct (conforms_field _ _ _ "urgency"
              (STRING (Some ["Low"; "Medium"; "High"])) H)
    as (v3 & E3 & H3); [cbn [In]; tauto | cbn [In]; tauto |].
  apply conforms_enum_string in H1 as (s & -> & Hs).
  apply conforms_enum_string in H2 as (r & -> & Hr).
  apply conforms_enum_string in H3 as (u & -> & Hu).
  exists s, r, u. split; [exact E1|]. split; [exact E2|]. split; [exact E3|].
  cbn [In] in Hs, Hr, Hu.
  destruct Hs as [<-|[<-|[<-|[<-|[]]]]];
    destruct Hr as [<-|[<-|[<-|[]]]];
    destruct Hu as [<-|[<-|[<-|[]]]];
    destruct lang;
    (split; [eexists; reflexivity|]); (split; [eexists; reflexivity|]);
    (split; [eexists; reflexivity|]);
    (split; [try reflexivity; discriminate | try reflexivity; discriminate]).
Qed.

Lemma X4_witness :
  is_Some (bar_label (HealthBar "Sick" "High" zh))
  ∧ bar_width (HealthBar "Sick" "High" zh) = "33%"
  ∧ bar_label (HealthBar "Sick" "High" en) = Some "Sick"
  ∧ bar_badge (HealthBar "Sick" "High" en) = Some "High Risk".
Proof.
  destruct (X4_conforming_diagnosis_has_labels
              [ ("name", JStr "Rose");
                ("scientificName", JStr "Rosa chinensis");
                ("healthStatus", JStr "Sick");
                ("riskLevel", JStr "High");
                ("symptoms", JArr [JStr "Black spots"; JStr "Yellow leaves"]);
                ("causes", JArr [JStr "Fungal infection"]);
                ("urgency", JStr "High");
                ("care", JObj [ ("light", JStr "Full sun");
                                ("water", JStr "Twice a week");
                                ("soil", JStr "Loam");
                                ("temp", JStr "15-25 C") ]);
                ("diagnosisSteps", JArr [JStr "Remove infected leaves"; JStr "Spray fungicide"]);
                ("treatmentIngredients", JArr [JStr "Mancozeb"; JStr "Carbendazim"]);
                ("funFact", JStr "Roses have been cultivated for 5000 years.") ]
              zh eq_refl)
    as (s & r & u & Es & Er & Eu & Hl & _).
  injection Es as <-. injection Er as <-.
  split; [exact Hl|]. repeat split; reflexivity.
Defined.

(** ** The treatment timeline *)

(** X5.  The timeline has one [StepItem] per diagnosis step, in order; the
    item at position [i] is numbered [i + 1] and shows step [i]; and it is
    marked as the last one, so that no connecting line is drawn under it,
    exactly when it is the final step. *)
Theorem X5_timeline_numbers_and_last (steps : list string) :
  length (timeline steps) = length steps
  ∧ ∀ (i : nat) (p : StepItemProps),
      timeline steps !! i = Some p →
      number p = (Z.of_nat i + 1)%Z
      ∧ steps !! i = Some (text p)
      ∧ (isLast p = true ↔ S i = length steps)
      ∧ (has_timeline_line p = true ↔ (S i < length steps)%nat).
Proof.
  split; [apply length_imap|]. intros i p Hp.
  unfold timeline in Hp. rewrite list_lookup_imap in Hp.
  destruct (steps !! i) as [step|] eqn:E; [|discriminate Hp].
  injection Hp as <-. unfold has_timeline_line. cbn [number text isLast].
  apply lookup_lt_Some in E.
  split; [reflexivity|]. split; [reflexivity|]. split.
  - rewrite Z.eqb_eq. lia.
  - rewrite negb_true_iff, Z.eqb_neq. lia.
Qed.

Lemma X5_witness :
  timeline ["Remove infected leaves"; "Spray fungicide"]
  = [ {| number := 1; text := "Remove infected leaves"; isLast := false |};
      {| number := 2; text := "Spray fungicide"; isLast := true |} ]
  ∧ (isLast {| number := 2; text := "Spray fungicide"; isLast := true |} = true
     ↔ 2%nat = length ["Remove infected leaves"; "Spray fungicide"]).
Proof.
  split; [reflexivity|].
  exact (proj1 (proj2 (proj2
           (proj2 (X5_timeline_numbers_and_last
                     ["Remove infected leaves"; "Spray fungicide"])
              1%nat {| number := 2; text := "Spray fungicide"; isLast := true |}
              eq_refl)))).
Defined.

(** ** The rendered blocks *)

(** X6.  In every state whose diagnosis cell is [null] or holds a document
    of the shape of [PlantData], at most one of the three blocks is on the
    page, and the page is empty exactly when the image cell is set, the
    processing flag is clear and the diagnosis cell is [null].
    Both revisions. *)
Theorem X6_blocks_exclude_one_another :
  (∀ a : Index.App,
      (Index.data a = None
       ∨ ∃ d pd, Index.data a = Some d ∧ asPlantData d = Some pd) →
      (length (Index.render a) ≤ 1)%nat
      ∧ (Index.render a = []
         ↔ truthy_text (Index.image a) = true ∧ Index.analyzing a = false
           ∧ Index.data a = None))
  ∧ (∀ a : Part000.App,
       (Part000.data a = None
        ∨ ∃ d pd, Part000.data a = Some d ∧ asPlantData d = Some pd) →
       (length (Part000.render a) ≤ 1)%nat
       ∧ (Part000.render a = []
          ↔ Part000.images a ≠ None ∧ Part000.isProcessing a = false
            ∧ Part000.data a = None)).
Proof.
  split; intros a Hd; (split; [first [apply index_render_at_most_one
                                     |apply part000_render_at_most_one]|]).
  - unfold Index.render. destruct a as [l an im d]; cbn in *.
    destruct Hd as [->|(d0 & pd & -> & Hpd)].
    + destruct (truthy_text im), an; cbn; split; try discriminate;
        try (intros (? & ? & ?); discriminate); intros _; repeat split; reflexivity.
    + assert (truthy d0 = true) as ->
        by (destruct d0; try discriminate Hpd; reflexivity).
      destruct (truthy_text im), an; cbn; split; try discriminate;
        intros (? & ? & ?); discriminate.
  - unfold Part000.render. destruct a as [l pr im d]; cbn in *.
    destruct Hd as [->|(d0 & pd & -> & Hpd)].
    + destruct im as [im|], pr; cbn; split; try discriminate;
        try (intros (? & ? & ?); try discriminate; contradiction);
        intros _; repeat split; try reflexivity; discriminate.
    + assert (truthy d0 = true) as ->
        by (destruct d0; try discriminate Hpd; reflexivity).
      destruct im as [im|], pr; cbn; split; try discriminate;
        intros (? & ? & ?); try discriminate; contradiction.
Qed.

Lemma X6_witness :
  Index.render {| Index.lang := zh; Index.analyzing := false;
                  Index.image := Some (readAsDataURL Sample.photo);
                  Index.data := None |} = []
  ∧ (length (Part000.render
               {| Part000.lang := en; Part000.isProcessing := false;
                  Part000.images := Some [readAsDataURL Sample.photo];
                  Part000.data := Some Sample.sick |}) ≤ 1)%nat.
Proof.
  destruct X6_blocks_exclude_one_another as [H1 H2].
  split.
  - apply (H1 {| Index.lang := zh; Index.analyzing := false;
                 Index.image := Some (readAsDataURL Sample.photo);
                 Index.data := None |}); [left; reflexivity|].
    repeat split; reflexivity.
  - apply (H2 {| Part000.lang := en; Part000.isProcessing := false;
                 Part000.images := Some [readAsDataURL Sample.photo];
                 Part000.data := Some Sample.sick |}).
    right. exists Sample.sick, Sample.sick_data. split; reflexivity.
Defined.

(** ** What a run never does *)

Section Frames.
Variable JSON_parse : string → option JsValue.

(** What a settlement leaves alone, and the only way it writes to the alert
    log. *)
Lemma index_settle_frame (w : Index.World) (k : nat) (o : Outcome) :
  let w' := Index.settle JSON_parse k o w in
  Index.lang (Index.app w') = Index.lang (Index.app w)
  ∧ Index.readers w' = Index.readers w
  ∧ ((Index.alerts w' = Index.alerts w ∧ Index.console w' = Index.console w)
     ∨ ∃ c, Index.calls w !! k = Some c
            ∧ Index.alerts w'
              = Index.alerts w ++ [Index.error (Index.translations (Index.call_lang c))]
            ∧ Index.console w' = S (Index.console w)).
Proof.
  cbv zeta. unfold Index.settle.
  destruct (Index.calls w !! k) as [c|] eqn:Hc; [|repeat split; left; split; reflexivity].
  unfold Index.analyzePlant_resume, Index.analyzePlant_try.
  destruct o as [|[s|]]; cbn.
  - repeat split. right. exists c. repeat split; reflexivity.
  - destruct (negb (s =? "")); [destruct (JSON_parse s)|]; cbn; repeat split;
      try (left; split; reflexivity).
    right. exists c. repeat split; reflexivity.
  - repeat split. left. split; reflexivity.
Qed.

Lemma part000_settle_frame (w : Part000.World) (k : nat) (o : Outcome) :
  let w' := Part000.settle JSON_parse k o w in
  Part000.lang (Part000.app w') = Part000.lang (Part000.app w)
  ∧ Part000.uploads w' = Part000.uploads w
  ∧ ((Part000.alerts w' = Part000.alerts w ∧ Part000.console w' = Part000.console w)
     ∨ ∃ c, Part000.calls w !! k = Some c
            ∧ Part000.alerts w'
              = Part000.alerts w
                  ++ [Part000.error (Part000.translations (Part000.call_lang c))]
            ∧ Part000.console w' = S (Part000.console w)).
Proof.
  cbv zeta. unfold Part000.settle.
  destruct (Part000.calls w !! k) as [c|] eqn:Hc; [|repeat split; left; split; reflexivity].
  unfold Part000.startSimulationAndAnalysis_resume.
  destruct (Part000.callGemini JSON_parse o) as [r|]; [destruct (truthy r)|]; cbn;
    repeat split; try (left; split; reflexivity).
  right. exists c. repeat split; reflexivity.
Qed.

(** What the firing of a reader leaves alone. *)
Lemma part000_onloadend_frame (w : Part000.World) (k i : nat) :
  let w' := Part000.onloadend k i w in
  Part000.lang (Part000.app w') = Part000.lang (Part000.app w)
  ∧ Part000.alerts w' = Part000.alerts w
  ∧ Part000.console w' = Part000.console w
  ∧ (length (Part000.uploads w') + length (Part000.calls w')
     = length (Part000.uploads w) + length (Part000.calls w))%nat.
Proof.
  cbv zeta. unfold Part000.onloadend.
  destruct (Part000.uploads w !! k) as [u|] eqn:Eu; [|repeat split; reflexivity].
  destruct (Part000.upload_files u !! i); [|repeat split; reflexivity].
  destruct (Part000.upload_values u !! i) as [[x|]|]; try (repeat split; reflexivity).
  assert (k < length (Part000.uploads w))%nat as Hk by (eapply lookup_lt_Some, Eu).
  destruct (Part000.Promise_all _) as [imgs|]; cbn.
  - rewrite length_app, length_delete by eauto. cbn. repeat split; lia.
  - rewrite length_insert. repeat split; reflexivity.
Qed.

Lemma index_onloadend_frame (w : Index.World) (k : nat) :
  let w' := Index.onloadend k w in
  Index.lang (Index.app w') = Index.lang (Index.app w)
  ∧ Index.alerts w' = Index.alerts w
  ∧ Index.console w' = Index.console w
  ∧ (length (Index.readers w') + length (Index.calls w')
     = length (Index.readers w) + length (Index.calls w))%nat.
Proof.
  cbv zeta. unfold Index.onloadend.
  destruct (Index.readers w !! k) as [r|] eqn:Er; [|repeat split; reflexivity].
  assert (k < length (Index.readers w))%nat as Hk by (eapply lookup_lt_Some, Er).
  cbn. rewrite length_app, length_delete by eauto. cbn. repeat split; lia.
Qed.

End Frames.

(** X7.  Only the language button changes the language: every other event,
    whatever the outcome of a request, leaves it as it was; so after any run
    the language is the initial one after an even number of clicks on the
    button and the other one after an odd number.  Both revisions. *)
Theorem X7_language_follows_clicks_only (JSON_parse : string → option JsValue) :
  let other (l : Lang) := match l with zh => en | en => zh end in
  (∀ (w : Index.World) (e : Index.Event),
      Index.lang (Index.app (Index.step JSON_parse w e))
      = match e with
        | Index.LanguageClicked => other (Index.lang (Index.app w))
        | _ => Index.lang (Index.app w)
        end)
  ∧ (∀ (w : Part000.World) (e : Part000.Event),
       Part000.lang (Part000.app (Part000.step JSON_parse w e))
       = match e with
         | Part000.LanguageClicked => other (Part000.lang (Part000.app w))
         | _ => Part000.lang (Part000.app w)
         end)
  ∧ (∀ (tr : list Index.Event) (w : Index.World),
       Index.lang (Index.app (Index.run JSON_parse w tr))
       = if Nat.even (index_language_clicks tr) then Index.lang (Index.app w)
         else other (Index.lang (Index.app w)))
  ∧ (∀ (tr : list Part000.Event) (w : Part000.World),
       Part000.lang (Part000.app (Part000.run JSON_parse w tr))
       = if Nat.even (part000_language_clicks tr) then Part000.lang (Part000.app w)
         else other (Part000.lang (Part000.app w))).
Proof.
  intros other.
  assert (∀ (w : Index.World) (e : Index.Event),
      Index.lang (Index.app (Index.step JSON_parse w e))
      = match e with
        | Index.LanguageClicked => other (Index.lang (Index.app w))
        | _ => Index.lang (Index.app w)
        end) as Hi.
  { intros w [files|k|k o| |]; cbn [Index.step].
    - destruct files; reflexivity.
    - apply index_onloadend_frame.
    - apply index_settle_frame.
    - reflexivity.
    - reflexivity. }
  assert (∀ (w : Part000.World) (e : Part000.Event),
       Part000.lang (Part000.app (Part000.step JSON_parse w e))
       = match e with
         | Part000.LanguageClicked => other (Part000.lang (Part000.app w))
         | _ => Part000.lang (Part000.app w)
         end) as Hp.
  { intros w [files|k i|k o| |]; cbn [Part000.step].
    - destruct files; reflexivity.
    - apply part000_onloadend_frame.
    - apply part000_settle_frame.
    - reflexivity.
    - reflexivity. }
  split; [exact Hi|]. split; [exact Hp|]. split.
  - induction tr as [|e tr IH]; intros w; [reflexivity|].
    change (Index.run JSON_parse w (e :: tr))
      with (Index.run JSON_parse (Index.step JSON_parse w e) tr).
    rewrite IH, Hi. unfold index_language_clicks. cbn [List.filter].
    destruct e; try reflexivity. cbn [length]. rewrite Nat.even_succ, <- Nat.negb_even.
    destruct (Nat.even _), (Index.lang (Index.app w)); reflexivity.
  - induction tr as [|e tr IH]; intros w; [reflexivity|].
    change (Part000.run JSON_parse w (e :: tr))
      with (Part000.run JSON_parse (Part000.step JSON_parse w e) tr).
    rewrite IH, Hp. unfold part000_language_clicks. cbn [List.filter].
    destruct e; try reflexivity. cbn [length]. rewrite Nat.even_succ, <- Nat.negb_even.
    destruct (Nat.even _), (Part000.lang (Part000.app w)); reflexivity.
Qed.

Section Bounds.
Variable JSON_parse : string → option JsValue.

Lemma index_settle_calls_exact (w : Index.World) (k : nat) (o : Outcome) :
  Index.calls (Index.settle JSON_parse k o w)
  = match Index.calls w !! k with
    | Some _ => delete k (Index.calls w)
    | None => Index.calls w
    end.
Proof.
  unfold Index.settle. destruct (Index.calls w !! k) as [c|]; [|reflexivity].
  unfold Index.analyzePlant_resume, Index.analyzePlant_try.
  destruct o as [|[s|]]; cbn; try reflexivity.
  destruct (negb (s =? "")); [destruct (JSON_parse s)|]; reflexivity.
Qed.

Lemma part000_settle_calls_exact (w : Part000.World) (k : nat) (o : Outcome) :
  Part000.calls (Part000.settle JSON_parse k o w)
  = match Part000.calls w !! k with
    | Some _ => delete k (Part000.calls w)
    | None => Part000.calls w
    end.
Proof.
  unfold Part000.settle. destruct (Part000.calls w !! k) as [c|]; [|reflexivity].
  unfold Part000.startSimulationAndAnalysis_resume.
  destruct (Part000.callGemini JSON_parse o) as [r|]; [destruct (truthy r)|]; reflexivity.
Qed.

(** One step: the alert log grows by at most one message of the table, and
    only on a settlement; the pending work together with the alert log grows
    by at most one, and only on a non-empty selection. *)
Lemma index_step_budget (w : Index.World) (e : Index.Event) :
  let w' := Index.step JSON_parse w e in
  let settled := match e with Index.CallSettled _ _ => 1%nat | _ => 0%nat end in
  let selected := match e with Index.FilesSelected (_ :: _) => 1%nat | _ => 0%nat end in
  (Index.console w' - Index.console w = length (Index.alerts w') - length (Index.alerts w))%nat
  ∧ (Index.console w ≤ Index.console w')%nat
  ∧ (length (Index.alerts w') ≤ length (Index.alerts w) + settled)%nat
  ∧ (∃ new, Index.alerts w' = Index.alerts w ++ new
            ∧ ∀ m, m ∈ new → ∃ l, m = Index.error (Index.translations l))
  ∧ (length (Index.readers w') + length (Index.calls w') + length (Index.alerts w')
     ≤ length (Index.readers w) + length (Index.calls w) + length (Index.alerts w)
       + selected)%nat.
Proof.
  cbv zeta. destruct e as [files|k|k o| |]; cbn [Index.step].
  - destruct files; cbn; rewrite ?length_app; cbn;
      (repeat split; try lia); exists []; rewrite app_nil_r;
      (split; [reflexivity|]); intros m Hm; apply elem_of_nil in Hm; contradiction.
  - destruct (index_onloadend_frame w k) as (_ & Ha & Hc & Hlen).
    rewrite Ha, Hc. repeat split; try lia.
    exists []. rewrite app_nil_r. split; [reflexivity|].
    intros m Hm. apply elem_of_nil in Hm. contradiction.
  - destruct (index_settle_frame JSON_parse w k o) as (_ & Hr & Hal).
    pose proof (index_settle_calls_exact w k o) as Hcalls.
    rewrite Hr, Hcalls.
    destruct Hal as [[Ha Hc]|(c & Hk & Ha & Hc)].
    + rewrite Ha, Hc.
      assert (length (match Index.calls w !! k with
                      | Some _ => delete k (Index.calls w)
                      | None => Index.calls w
                      end) ≤ length (Index.calls w))%nat as Hle.
      { destruct (Index.calls w !! k) eqn:E; [|lia].
        rewrite length_delete by eauto. lia. }
      repeat split; try lia.
      exists []. rewrite app_nil_r. split; [reflexivity|].
      intros m Hm. apply elem_of_nil in Hm. contradiction.
    + rewrite Ha, Hc, Hk, length_app, length_delete by eauto. cbn.
      assert (k < length (Index.calls w))%nat by (eapply lookup_lt_Some, Hk).
      repeat split; try lia.
      eexists. split; [reflexivity|].
      intros m Hm. apply list_elem_of_singleton in Hm. eauto.
  - cbn. repeat split; try lia. exists []. rewrite app_nil_r. split; [reflexivity|].
    intros m Hm. apply elem_of_nil in Hm. contradiction.
  - cbn. repeat split; try lia. exists []. rewrite app_nil_r. split; [reflexivity|].
    intros m Hm. apply elem_of_nil in Hm. contradiction.
Qed.

Lemma part000_step_budget (w : Part000.World) (e : Part000.Event) :
  let w' := Part000.step JSON_parse w e in
  let settled := match e with Part000.CallSettled _ _ => 1%nat | _ => 0%nat end in
  let selected := match e with Part000.FilesSelected (_ :: _) => 1%nat | _ => 0%nat end in
  (Part000.console w' - Part000.console w
   = length (Part000.alerts w') - length (Part000.alerts w))%nat
  ∧ (Part000.console w ≤ Part000.console w')%nat
  ∧ (length (Part000.alerts w') ≤ length (Part000.alerts w) + settled)%nat
  ∧ (∃ new, Part000.alerts w' = Part000.alerts w ++ new
            ∧ ∀ m, m ∈ new → ∃ l, m = Part000.error (Part000.translations l))
  ∧ (length (Part000.uploads w') + length (Part000.calls w') + length (Part000.alerts w')
     ≤ length (Part000.uploads w) + length (Part000.calls w) + length (Part000.alerts w)
       + selected)%nat.
Proof.
  cbv zeta. destruct e as [files|k i|k o| |]; cbn [Part000.step].
  - destruct files; cbn; rewrite ?length_app; cbn;
      (repeat split; try lia); exists []; rewrite app_nil_r;
      (split; [reflexivity|]); intros m Hm; apply elem_of_nil in Hm; contradiction.
  - destruct (part000_onloadend_frame w k i) as (_ & Ha & Hc & Hlen).
    rewrite Ha, Hc. repeat split; try lia.
    exists []. rewrite app_nil_r. split; [reflexivity|].
    intros m Hm. apply elem_of_nil in Hm. contradiction.
  - destruct (part000_settle_frame JSON_parse w k o) as (_ & Hr & Hal).
    pose proof (part000_settle_calls_exact w k o) as Hcalls.
    rewrite Hr, Hcalls.
    destruct Hal as [[Ha Hc]|(c & Hk & Ha & Hc)].
    + rewrite Ha, Hc.
      assert (length (match Part000.calls w !! k with
                      | Some _ => delete k (Part000.calls w)
                      | None => Part000.calls w
                      end) ≤ length (Part000.calls w))%nat as Hle.
      { destruct (Part000.calls w !! k) eqn:E; [|lia].
        rewrite length_delete by eauto. lia. }
      repeat split; try lia.
      exists []. rewrite app_nil_r. split; [reflexivity|].
      intros m Hm. apply elem_of_nil in Hm. contradiction.
    + rewrite Ha, Hc, Hk, length_app, length_delete by eauto. cbn.
      assert (k < length (Part000.calls w))%nat by (eapply lookup_lt_Some, Hk).
      repeat split; try lia.
      eexists. split; [reflexivity|].
      intros m Hm. apply list_elem_of_singleton in Hm. eauto.
  - cbn. repeat split; try lia. exists []. rewrite app_nil_r. split; [reflexivity|].
    intros m Hm. apply elem_of_nil in Hm. contradiction.
  - cbn. repeat split; try lia. exists []. rewrite app_nil_r. split; [reflexivity|].
    intros m Hm. apply elem_of_nil in Hm. contradiction.
Qed.

End Bounds.

(** X8.  In every run from the initial state, [alert] and [console.error]
    have been called equally often, at most once per settled request, and
    every message shown is the [error] entry of [translations] in one of the
    two languages.  Both revisions. *)
Theorem X8_alerts_only_report_failed_calls (JSON_parse : string → option JsValue) :
  (∀ tr : list Index.Event,
      let w := Index.run JSON_parse Index.boot tr in
      length (Index.alerts w) = Index.console w
      ∧ (length (Index.alerts w) ≤ index_settlements tr)%nat
      ∧ ∀ m, m ∈ Index.alerts w → ∃ l, m = Index.error (Index.translations l))
  ∧ (∀ tr : list Part000.Event,
       let w := Part000.run JSON_parse Part000.boot tr in
       length (Part000.alerts w) = Part000.console w
       ∧ (length (Part000.alerts w) ≤ part000_settlements tr)%nat
       ∧ ∀ m, m ∈ Part000.alerts w → ∃ l, m = Part000.error (Part000.translations l)).
Proof.
  split.
  - induction tr as [|e tr IH] using rev_ind.
    { cbn. repeat split; try lia. intros m Hm. apply elem_of_nil in Hm. contradiction. }
    cbv zeta in *. unfold Index.run in *. rewrite foldl_app. cbn [foldl].
    destruct IH as (Hc & Hs & Hm).
    destruct (index_step_budget JSON_parse (foldl (Index.step JSON_parse) Index.boot tr) e)
      as (H1 & H2 & H3 & (new & Hnew & Hmsg) & _).
    unfold index_settlements in *. rewrite List.filter_app, length_app.
    split; [|split].
    + rewrite Hnew, length_app in *. lia.
    + destruct e; cbn [List.filter length] in *; lia.
    + intros m Hin. rewrite Hnew in Hin. apply elem_of_app in Hin as [Hin|Hin]; eauto.
  - induction tr as [|e tr IH] using rev_ind.
    { cbn. repeat split; try lia. intros m Hm. apply elem_of_nil in Hm. contradiction. }
    cbv zeta in *. unfold Part000.run in *. rewrite foldl_app. cbn [foldl].
    destruct IH as (Hc & Hs & Hm).
    destruct (part000_step_budget JSON_parse
                (foldl (Part000.step JSON_parse) Part000.boot tr) e)
      as (H1 & H2 & H3 & (new & Hnew & Hmsg) & _).
    unfold part000_settlements in *. rewrite List.filter_app, length_app.
    split; [|split].
    + rewrite Hnew, length_app in *. lia.
    + destruct e; cbn [List.filter length] in *; lia.
    + intros m Hin. rewrite Hnew in Hin. apply elem_of_app in Hin as [Hin|Hin]; eauto.
Qed.

Lemma X8_witness :
  let w := Index.run Sample.mock_parse Index.boot
             [Index.FilesSelected [Sample.photo]; Index.ReaderLoaded 0;
              Index.CallSettled 0 Rejected] in
  Index.error (Index.translations zh) ∈ Index.alerts w
  ∧ ∃ l, Index.error (Index.translations zh) = Index.error (Index.translations l).
Proof.
  intros w.
  assert (Index.error (Index.translations zh) ∈ Index.alerts w) as Hin
    by (apply list_elem_of_singleton; reflexivity).
  split; [exact Hin|].
  exact (proj2 (proj2 (proj1 (X8_alerts_only_report_failed_calls Sample.mock_parse)
                         [Index.FilesSelected [Sample.photo]; Index.ReaderLoaded 0;
                          Index.CallSettled 0 Rejected]))
           _ Hin).
Defined.

(** X9.  Nothing is retried and nothing is sent unasked: a settlement never
    adds a request, and in every run from the initial state the readers still
    running, the requests in flight and the alerts shown together number at
    most the non-empty selections made.  Both revisions. *)
Theorem X9_work_is_bounded_by_selections (JSON_parse : string → option JsValue) :
  (∀ (w : Index.World) (k : nat) (o : Outcome),
      (length (Index.calls (Index.settle JSON_parse k o w)) ≤ length (Index.calls w))%nat)
  ∧ (∀ (w : Part000.World) (k : nat) (o : Outcome),
       (length (Part000.calls (Part000.settle JSON_parse k o w))
        ≤ length (Part000.calls w))%nat)
  ∧ (∀ tr : list Index.Event,
       let w := Index.run JSON_parse Index.boot tr in
       (length (Index.readers w) + length (Index.calls w) + length (Index.alerts w)
        ≤ index_selections tr)%nat)
  ∧ (∀ tr : list Part000.Event,
       let w := Part000.run JSON_parse Part000.boot tr in
       (length (Part000.uploads w) + length (Part000.calls w) + length (Part000.alerts w)
        ≤ part000_selections tr)%nat).
Proof.
  split; [apply index_settle_calls|]. split; [apply part000_settle_calls|]. split.
  - induction tr as [|e tr IH] using rev_ind; [cbn; lia|].
    cbv zeta in *. unfold Index.run in *. rewrite foldl_app. cbn [foldl].
    destruct (index_step_budget JSON_parse (foldl (Index.step JSON_parse) Index.boot tr) e)
      as (_ & _ & _ & _ & Hb).
    unfold index_selections in *. rewrite List.filter_app, length_app.
    destruct e as [[|f fs]|k|k o| |]; cbn [List.filter length] in *; lia.
  - induction tr as [|e tr IH] using rev_ind; [cbn; lia|].
    cbv zeta in *. unfold Part000.run in *. rewrite foldl_app. cbn [foldl].
    destruct (part000_step_budget JSON_parse
                (foldl (Part000.step JSON_parse) Part000.boot tr) e)
      as (_ & _ & _ & _ & Hb).
    unfold part000_selections in *. rewrite List.filter_app, length_app.
    destruct e as [[|f fs]|k i|k o| |]; cbn [List.filter length] in *; lia.
Qed.

(** ** The language of a request is the language at the selection *)

Lemma readers_finish_perm (U : list Part000.Upload) (files : list File) (l : Lang)
    (order : list nat) (x : Part000.World) :
  files ≠ [] → order ≡ₚ seq 0 (length files) →
  Part000.uploads x = U ++ [Part000.upload_with order files l] →
  Part000.readers_finish (length U) order x
  = Part000.startSimulationAndAnalysis (readAsDataURL <$> files) l
      (Part000.upd (Part000.setImages (Some (readAsDataURL <$> files)))
         (Part000.with_uploads U x)).
Proof.
  intros Hfiles Hperm Hup.
  apply readers_finish_joins; [| | |exact Hup].
  - intros ->. apply Permutation_length in Hperm. rewrite length_seq in Hperm.
    destruct files; [contradiction Hfiles; reflexivity|discriminate Hperm].
  - rewrite Hperm. apply NoDup_seq.
  - intros j. rewrite Hperm, elem_of_seq. lia.
Qed.

(** X10.  The handlers close over the language of the render in which the
    files were selected.  If the language button is clicked after a selection
    and before its request fails, the alert is still shown in the language
    the page had at the selection, while the page is in the other language.
    Both revisions, for every state, every non-empty selection and every
    throwing outcome. *)
Theorem X10_alert_uses_language_of_selection (JSON_parse : string → option JsValue) :
  (∀ (w : Index.World) (file : File) (rest : list File) (o : Outcome),
      call_throws JSON_parse o →
      let w' := Index.settle JSON_parse (length (Index.calls w)) o
                  (Index.onloadend (length (Index.readers w))
                     (Index.toggleLanguage (Index.handleImageUpload (file :: rest) w))) in
      Index.alerts w'
      = Index.alerts w ++ [Index.error (Index.translations (Index.lang (Index.app w)))]
      ∧ Index.lang (Index.app w') ≠ Index.lang (Index.app w))
  ∧ (∀ (w : Part000.World) (files : list File) (order : list nat) (o : Outcome),
       files ≠ [] → order ≡ₚ seq 0 (length files) → call_throws JSON_parse o →
       let w' := Part000.settle JSON_parse (length (Part000.calls w)) o
                   (Part000.readers_finish (length (Part000.uploads w)) order
                      (Part000.toggleLanguage (Part000.handleImageUpload files w))) in
       Part000.alerts w'
       = Part000.alerts w
           ++ [Part000.error (Part000.translations (Part000.lang (Part000.app w)))]
       ∧ Part000.lang (Part000.app w') ≠ Part000.lang (Part000.app w)).
Proof.
  split.
  - intros w file rest o Ho w'. subst w'.
    unfold Index.onloadend. cbn [Index.handleImageUpload Index.toggleLanguage
      Index.upd Index.with_readers Index.readers].
    rewrite (list_lookup_middle (Index.readers w) [] _ _ eq_refl).
    cbn [Index.reader_file Index.reader_lang].
    erewrite (index_settle_throws JSON_parse _ (length (Index.calls w)) _ o);
      [| |exact Ho].
    2:{ cbn. apply list_lookup_middle. reflexivity. }
    cbn. split; [reflexivity|].
    destruct (Index.lang (Index.app w)); discriminate.
  - intros w files order o Hfiles Hperm Ho w'. subst w'.
    destruct (upload_joins w files order Hfiles Hperm) as [Hup _].
    rewrite (readers_finish_perm (Part000.uploads w) files
               (Part000.lang (Part000.app w)) order
               (Part000.toggleLanguage (Part000.handleImageUpload files w))
               Hfiles Hperm Hup).
    destruct files as [|f fs]; [contradiction Hfiles; reflexivity|].
    erewrite (part000_settle_throws JSON_parse _ (length (Part000.calls w)) _ o);
      [| |exact Ho].
    2:{ cbn. apply list_lookup_middle. reflexivity. }
    cbn. split; [reflexivity|].
    destruct (Part000.lang (Part000.app w)); discriminate.
Qed.

Lemma X10_witness :
  Index.alerts
    (Index.run Sample.mock_parse Index.boot
       [Index.FilesSelected [Sample.photo]; Index.LanguageClicked;
        Index.ReaderLoaded 0; Index.CallSettled 0 Rejected])
  = [Index.error (Index.translations zh)]
  ∧ Part000.alerts
      (Part000.run Sample.mock_parse Part000.boot
         [Part000.FilesSelected [Sample.photo; Sample.closeup]; Part000.LanguageClicked;
          Part000.ReaderLoaded 0 1; Part000.ReaderLoaded 0 0;
          Part000.CallSettled 0 Rejected])
    = [Part000.error (Part000.translations zh)].
Proof.
  destruct (X10_alert_uses_language_of_selection Sample.mock_parse) as [H1 H2].
  split.
  - exact (proj1 (H1 Index.boot Sample.photo [] Rejected (or_introl eq_refl))).
  - refine (proj1 (H2 Part000.boot [Sample.photo; Sample.closeup] [1; 0]%nat Rejected
                     _ _ (or_introl eq_refl))).
    + discriminate.
    + apply perm_swap.
Defined.

(** ** Between the selection and the last reader *)

(** X11.  [part_000]: as long as one reader of an upload is still running,
    the state cells, the requests in flight and the alert log are exactly as
    the selection left them: the images cell never holds a part of the
    selection. *)
Theorem X11_no_partial_image_list
    (w : Part000.World) (files : list File) (before after : list nat) :
  files ≠ [] → before ++ after ≡ₚ seq 0 (length files) → after ≠ [] →
  let w1 := Part000.handleImageUpload files w in
  let w' := Part000.readers_finish (length (Part000.uploads w)) before w1 in
  Part000.app w' = Part000.app w1
  ∧ Part000.images (Part000.app w') = Part000.images (Part000.app w)
  ∧ Part000.calls w' = Part000.calls w
  ∧ Part000.alerts w' = Part000.alerts w
  ∧ length (Part000.uploads w') = S (length (Part000.uploads w)).
Proof.
  intros Hfiles Hperm Hafter w1 w'. subst w1 w'.
  destruct (upload_joins w files (before ++ after) Hfiles Hperm) as [Hup _].
  rewrite (readers_finish_waits (Part000.uploads w) files
             (Part000.lang (Part000.app w)) before after _ Hafter).
  - destruct files as [|f fs]; [contradiction Hfiles; reflexivity|].
    cbn. rewrite length_app. cbn. repeat split; try reflexivity. lia.
  - rewrite Hperm. apply NoDup_seq.
  - intros j. rewrite Hperm, elem_of_seq. lia.
  - exact Hup.
Qed.

Lemma X11_witness :
  let w' := Part000.readers_finish 0 [2; 0]%nat
              (Part000.handleImageUpload
                 [Sample.photo; Sample.closeup; Sample.photo] Part000.boot) in
  Part000.images (Part000.app w') = None ∧ Part000.calls w' = [].
Proof.
  intros w'.
  destruct (X11_no_partial_image_list Part000.boot
              [Sample.photo; Sample.closeup; Sample.photo] [2; 0]%nat [1]%nat)
    as (_ & Hi & Hc & _).
  - discriminate.
  - cbn. apply Permutation_cons_app with (l1 := [0; 1]%nat) (l2 := []). reflexivity.
  - discriminate.
  - split; [exact Hi | exact Hc].
Defined.

(** ** Trying again after a failure *)

(** X12.  After a request that throws, the page is usable again: a second
    selection, made from the landing block, is read, its request succeeds with
    a conforming document, and the result block shows that document with the
    second photo; the alert log holds the one alert of the failure.  Every
    event of the run is one the page allows.  Both revisions. *)
Theorem X12_retry_after_failure_succeeds (JSON_parse : string → option JsValue)
    (first second : File) (o : Outcome) (s : string) (v : JsValue) :
  call_throws JSON_parse o →
  s ≠ "" → JSON_parse s = Some v → conforms plantSchema v = true →
  (let tr := [Index.FilesSelected [first]; Index.ReaderLoaded 0; Index.CallSettled 0 o;
              Index.FilesSelected [second]; Index.ReaderLoaded 0;
              Index.CallSettled 0 (Responded (Some s))] in
   let w := Index.run JSON_parse Index.boot tr in
   Index.feasible JSON_parse Index.boot tr = true
   ∧ Index.render (Index.app w) = [ResultView v]
   ∧ Index.image (Index.app w) = Some (readAsDataURL second)
   ∧ Index.alerts w = [Index.error (Index.translations zh)])
  ∧ (let tr := [Part000.FilesSelected [first]; Part000.ReaderLoaded 0 0;
                Part000.CallSettled 0 o;
                Part000.FilesSelected [second]; Part000.ReaderLoaded 0 0;
                Part000.CallSettled 0 (Responded (Some s))] in
     let w := Part000.run JSON_parse Part000.boot tr in
     Part000.feasible JSON_parse Part000.boot tr = true
     ∧ Part000.render (Part000.app w) = [ResultView v]
     ∧ Part000.images (Part000.app w) = Some [readAsDataURL second]
     ∧ Part000.alerts w = [Part000.error (Part000.translations zh)]).
Proof.
  intros Ho Hs Hp Hv.
  destruct (conforms_object_truthy v Hv) as [Htr Hnn].
  split.
  - cbv zeta. unfold Index.run.
    cbn [foldl Index.feasible Index.step Index.handleImageUpload].
    set (w2 := Index.onloadend 0 _).
    assert (Index.settle JSON_parse 0 o w2
            = {| Index.app := Index.initial; Index.readers := []; Index.calls := [];
                 Index.alerts := [Index.error (Index.translations zh)];
                 Index.console := 1 |}) as E3.
    { rewrite (index_settle_throws JSON_parse w2 0
                 {| Index.call_image := readAsDataURL first; Index.call_lang := zh |}
                 o eq_refl Ho). reflexivity. }
    rewrite E3. cbn [Index.handleImageUpload].
    set (w5 := Index.onloadend 0 _).
    rewrite (index_settle_parsed JSON_parse w5 0
               {| Index.call_image := readAsDataURL second; Index.call_lang := zh |}
               s v eq_refl Hs Hp), Hnn.
    subst w2 w5. unfold Index.render. cbn. rewrite Htr. cbn.
    repeat split; reflexivity.
  - cbv zeta. unfold Part000.run.
    cbn [foldl Part000.feasible Part000.step Part000.handleImageUpload].
    set (w2 := Part000.onloadend 0 0 _).
    assert (Part000.settle JSON_parse 0 o w2
            = {| Part000.app := Part000.initial; Part000.uploads := [];
                 Part000.calls := [];
                 Part000.alerts := [Part000.error (Part000.translations zh)];
                 Part000.console := 1 |}) as E3.
    { rewrite (part000_settle_throws JSON_parse w2 0
                 {| Part000.call_images := [readAsDataURL first];
                    Part000.call_lang := zh |}
                 o eq_refl Ho). reflexivity. }
    rewrite E3. cbn [Part000.handleImageUpload].
    set (w5 := Part000.onloadend 0 0 _).
    rewrite (part000_settle_parsed JSON_parse w5 0
               {| Part000.call_images := [readAsDataURL second];
                  Part000.call_lang := zh |}
               s v eq_refl Hs Hp Htr).
    subst w2 w5. unfold Part000.render. cbn. rewrite Htr. cbn.
    repeat split; reflexivity.
Qed.

Lemma X12_witness :
  Part000.render
    (Part000.app
       (Part000.run Sample.mock_parse Part000.boot
          [Part000.FilesSelected [Sample.photo]; Part000.ReaderLoaded 0 0;
           Part000.CallSettled 0 (Responded (Some "<html>"));
           Part000.FilesSelected [Sample.closeup]; Part000.ReaderLoaded 0 0;
           Part000.CallSettled 0 (Responded (Some Sample.sick_text))]))
  = [ResultView Sample.sick].
Proof.
  refine (proj1 (proj2 (proj2
            (X12_retry_after_failure_succeeds Sample.mock_parse
               Sample.photo Sample.closeup (Responded (Some "<html>"))
               Sample.sick_text Sample.sick _ _ eq_refl eq_refl)))).
  - right. exists "<html>". split; [reflexivity|]. split; [discriminate|reflexivity].
  - discriminate.
Defined.
